(** * VaahanBazaar backend: the scooter listing model and its routes

    A shallow embedding of [models/Scooter.js] (the mongoose schema, its
    virtuals, its pre-save hook, its statics and its instance methods) and of
    [routes/scooterRoutes.js] (the express handlers), followed by the
    properties the specification states about them.  [routes/bikeRoutes.js]
    is the same text with "bike" for "scooter", over a Bike model of the
    same shape; what is proved of the scooter handlers reads for the bike
    handlers as well.

    Modelling conventions.
    - A JavaScript string is a [string] (a sequence of bytes); the white
      space [parseInt] skips is the ASCII white space.  A query parameter
      and a path segment are strings.
    - The numbers [parseInt] produces are [JsNumber]s: NaN, +Infinity (which
      only [Math.ceil (n / 0)] can produce here) or an exact integer.  Prices
      are exact rationals ([Q]); binary64 rounding is not modelled.
    - A document path that JavaScript may find [undefined] is an [option].
    - The collection is the list of its documents in insertion order; every
      handler is a function from the collection (and the clock, and the
      request) to the new collection and the response. *)

From Stdlib Require Import List String Ascii Bool ZArith QArith Qround Lia.
From Stdlib Require Import Permutation DecimalString Lqa.
Import ListNotations.

Local Open Scope string_scope.
Local Open Scope Z_scope.

(** ** JavaScript values *)

Module Js.

(** The numbers that occur in the handlers. *)
Inductive JsNumber : Type :=
| JNaN : JsNumber
| JInf : JsNumber
| JNum : Z -> JsNumber.

(** [isNaN]. *)
Definition isNaN (x : JsNumber) : bool :=
  match x with JNaN => true | _ => false end.

(** [a - b] and [a * b] on the numbers [parseInt] returns (never infinite). *)
Definition numSub (a b : JsNumber) : JsNumber :=
  match a, b with
  | JNum x, JNum y => JNum (x - y)
  | _, _ => JNaN
  end.

Definition numMul (a b : JsNumber) : JsNumber :=
  match a, b with
  | JNum x, JNum y => JNum (x * y)
  | _, _ => JNaN
  end.

(** [a < b]: false as soon as one side is NaN. *)
Definition numLt (a b : JsNumber) : bool :=
  match a, b with
  | JNaN, _ | _, JNaN => false
  | JInf, _ => false
  | JNum _, JInf => true
  | JNum x, JNum y => x <? y
  end.

Definition numGt (a b : JsNumber) : bool := numLt b a.

(** [Math.ceil (n / d)] for an integer count [n >= 0]. *)
Definition ceilDiv (n : Z) (d : JsNumber) : JsNumber :=
  match d with
  | JNaN => JNaN
  | JInf => JNum 0
  | JNum 0 => if n =? 0 then JNaN else JInf
  | JNum l => JNum (- ((- n) / l))
  end.

(** Truthiness of a string that may be [undefined]: [undefined] and the
    empty string are falsy. *)
Definition truthy (v : option string) : bool :=
  match v with
  | Some (String _ _) => true
  | _ => false
  end.

(** Truthiness of a number that may be [undefined]: [undefined] and zero
    are falsy. *)
Definition truthyQ (v : option Q) : bool :=
  match v with
  | Some q => negb (Qeq_bool q 0)
  | None => false
  end.

(** [a || b] on strings that may be [undefined]. *)
Definition orElse (a b : option string) : option string :=
  if truthy a then a else b.

(** [Array.prototype.includes] on an array of strings. *)
Definition includes (l : list string) (v : string) : bool :=
  existsb (String.eqb v) l.

(** *** [parseInt] with no radix argument *)

Definition isWhiteSpace (c : ascii) : bool :=
  let n := nat_of_ascii c in
  ((9 <=? n) && (n <=? 13) || (n =? 32))%nat.

Fixpoint skipWhiteSpace (s : string) : string :=
  match s with
  | String c r => if isWhiteSpace c then skipWhiteSpace r else s
  | EmptyString => s
  end.

(** The value of [c] as a digit in base [radix], if it is one. *)
Definition digitValue (radix : Z) (c : ascii) : option Z :=
  let n := Z.of_nat (nat_of_ascii c) in
  let v := if (48 <=? n) && (n <=? 57) then n - 48
           else if (97 <=? n) && (n <=? 122) then n - 87
           else if (65 <=? n) && (n <=? 90) then n - 55
           else radix in
  if v <? radix then Some v else None.

(** The longest prefix of digits, read as a number; [acc] is [None] until a
    first digit is seen. *)
Fixpoint readDigits (radix : Z) (s : string) (acc : option Z) : option Z :=
  match s with
  | String c r =>
      match digitValue radix c with
      | Some d =>
          readDigits radix r
            (Some (match acc with Some a => a * radix + d | None => d end))
      | None => acc
      end
  | EmptyString => acc
  end.

Definition stripSign (s : string) : Z * string :=
  match s with
  | String "-" r => (-1, r)
  | String "+" r => (1, r)
  | _ => (1, s)
  end.

Definition stripHexPrefix (s : string) : Z * string :=
  match s with
  | String "0" (String "x" r) => (16, r)
  | String "0" (String "X" r) => (16, r)
  | _ => (10, s)
  end.

Definition parseInt (s : string) : JsNumber :=
  let '(sign, s1) := stripSign (skipWhiteSpace s) in
  let '(radix, s2) := stripHexPrefix s1 in
  match readDigits radix s2 None with
  | Some v => JNum (sign * v)
  | None => JNaN
  end.

(** [Math.round] on an exact rational: the nearest integer, ties upwards. *)
Definition round (x : Q) : Z := Qfloor (x + (1 # 2)).

End Js.
Import Js.

(** ** The scooter document ([models/Scooter.js])

    The paths that the handlers, the hook, the virtuals and the statics read
    or write.  The remaining paths of the schema ([model], [year],
    [daysUsed], [mileage], [license], [topSpeed], [images], [features],
    [location], [seller.name], [seller.phone], [contactInfo.phone],
    [contactInfo.whatsapp], [isPromoted], [rating], [reviewCount]) are
    written once at creation and read by nothing below; each has validators
    of its own path only, which a stored document passed when it was
    created. *)

Definition ObjectId : Type := N.

Record Scooter : Type := mkScooter {
  _id : ObjectId;
  name : option string;
  brand : option string;
  description : option string;
  condition : option string;
  type : option string;
  engineCapacity : option string;
  batteryCapacity : option string;
  presentPrice : option Q;
  pastPrice : option Q;
  seller_email : option string;
  contactInfo_email : option string;
  availability : string;
  isActive : bool;
  viewCount : Z;
  createdAt : Z;
  updatedAt : Z
}.

Definition set_contactInfo_email (v : option string) (d : Scooter) : Scooter :=
  mkScooter (_id d) (name d) (brand d) (description d) (condition d) (type d)
    (engineCapacity d) (batteryCapacity d) (presentPrice d) (pastPrice d)
    (seller_email d) v (availability d) (isActive d) (viewCount d)
    (createdAt d) (updatedAt d).

Definition set_availability (v : string) (d : Scooter) : Scooter :=
  mkScooter (_id d) (name d) (brand d) (description d) (condition d) (type d)
    (engineCapacity d) (batteryCapacity d) (presentPrice d) (pastPrice d)
    (seller_email d) (contactInfo_email d) v (isActive d) (viewCount d)
    (createdAt d) (updatedAt d).

Definition set_isActive (v : bool) (d : Scooter) : Scooter :=
  mkScooter (_id d) (name d) (brand d) (description d) (condition d) (type d)
    (engineCapacity d) (batteryCapacity d) (presentPrice d) (pastPrice d)
    (seller_email d) (contactInfo_email d) (availability d) v (viewCount d)
    (createdAt d) (updatedAt d).

Definition set_viewCount (v : Z) (d : Scooter) : Scooter :=
  mkScooter (_id d) (name d) (brand d) (description d) (condition d) (type d)
    (engineCapacity d) (batteryCapacity d) (presentPrice d) (pastPrice d)
    (seller_email d) (contactInfo_email d) (availability d) (isActive d) v
    (createdAt d) (updatedAt d).

Definition set_createdAt (v : Z) (d : Scooter) : Scooter :=
  mkScooter (_id d) (name d) (brand d) (description d) (condition d) (type d)
    (engineCapacity d) (batteryCapacity d) (presentPrice d) (pastPrice d)
    (seller_email d) (contactInfo_email d) (availability d) (isActive d)
    (viewCount d) v (updatedAt d).

Definition set_updatedAt (v : Z) (d : Scooter) : Scooter :=
  mkScooter (_id d) (name d) (brand d) (description d) (condition d) (type d)
    (engineCapacity d) (batteryCapacity d) (presentPrice d) (pastPrice d)
    (seller_email d) (contactInfo_email d) (availability d) (isActive d)
    (viewCount d) (createdAt d) v.

(** The collection: its documents, oldest first. *)
Definition Collection : Type := list Scooter.

(** What mongoose and the express handlers distinguish in a rejected
    promise: [error.name === 'ValidationError'] (with the messages of
    [error.errors]), [error.name === 'CastError'], and anything else (with
    its [error.message] when the source gives it). *)
Inductive MongooseError : Type :=
| ValidationError (errors : list string)
| CastError
| OtherError (message : option string).

Definition Result (A : Type) : Type := (MongooseError + A)%type.

Definition bind {A B : Type} (r : Result A) (k : A -> Result B) : Result B :=
  match r with
  | inl e => inl e
  | inr a => k a
  end.

Notation "x <- r ;; k" := (bind r (fun x => k))
  (at level 61, r at next level, right associativity).

(** ** What MongoDB and the JavaScript runtime provide

    The regular-expression engine, the ordering [Query.sort] applies, the
    reading of a path segment as an ObjectId, the ObjectId given to a new
    document and [Number.prototype.toLocaleString]. *)

Class Platform : Type := {
  (** [regexCompile pattern ignoreCase] is the test of the compiled pattern,
      or [None] when the pattern does not compile. *)
  regexCompile : string -> bool -> option (string -> bool);
  (** [sortDocs spec l]: [l] in the order [.sort(spec)] asks for. *)
  sortDocs : string -> list Scooter -> list Scooter;
  sortDocs_perm : forall spec l, Permutation (sortDocs spec l) l;
  castObjectId : string -> option ObjectId;
  newObjectId : Collection -> ObjectId;
  newObjectId_fresh : forall s, ~ In (newObjectId s) (map _id s);
  toLocaleString : Z -> string
}.

Section Model.

Context {M : Platform}.

(** ** Schema validators

    For each path mongoose runs the validators in order, [required] first,
    and reports the first that fails; a validator other than [required] is
    not run on [undefined]. *)

Fixpoint firstFailure (checks : list (bool * string)) : list string :=
  match checks with
  | (ok, msg) :: rest => if ok then firstFailure rest else [msg]
  | [] => []
  end.

(** [this.path === 'literal']. *)
Definition is_str (v : option string) (s : string) : bool :=
  match v with
  | Some x => String.eqb x s
  | None => false
  end.

(** [required] on a String path: a non-empty string. *)
Definition requiredString (v : option string) : bool := truthy v.

(** [required] on a Number path. *)
Definition requiredNumber (v : option Q) : bool :=
  match v with Some _ => true | None => false end.

Definition maxLength (n : Z) (v : option string) : bool :=
  match v with
  | Some s => Z.of_nat (String.length s) <=? n
  | None => true
  end.

Definition enum (values : list string) (v : option string) : bool :=
  match v with
  | Some s => includes values s
  | None => true
  end.

Definition minNumber (m : Q) (v : option Q) : bool :=
  match v with
  | Some q => Qle_bool m q
  | None => true
  end.

Definition regexTest (pattern : string) (ignoreCase : bool) (s : string) : bool :=
  match regexCompile pattern ignoreCase with
  | Some test => test s
  | None => false
  end.

(** [match: [/re/, msg]]: mongoose does not test [undefined] or [""]. *)
Definition matchRegex (pattern : string) (v : option string) : bool :=
  match v with
  | Some (String _ _ as s) => regexTest pattern false s
  | _ => true
  end.

Definition emailPattern : string :=
  "^\w+([.-]?\w+)*@\w+([.-]?\w+)*(\.\w{2,3})+$".

Definition typeValues : list string := ["Petrol"; "Electric"].
Definition conditionValues : list string := ["Excellent"; "Good"; "Fair"; "Poor"].
Definition availabilityValues : list string := ["available"; "sold"; "reserved"].

(** The [validate.validator] of [engineCapacity], with [this = d]:
    [this.type !== 'Petrol' || (v && v.length > 0)]. *)
Definition engineCapacityValidator (d : Scooter) (v : string) : bool :=
  negb (is_str (type d) "Petrol")
  || (truthy (Some v) && (0 <? Z.of_nat (String.length v))).

(** The [validate.validator] of [batteryCapacity]. *)
Definition batteryCapacityValidator (d : Scooter) (v : string) : bool :=
  negb (is_str (type d) "Electric")
  || (truthy (Some v) && (0 <? Z.of_nat (String.length v))).

(** A custom validator is skipped on [undefined]. *)
Definition customValidator (f : string -> bool) (v : option string) : bool :=
  match v with
  | Some s => f s
  | None => true
  end.

Definition engineCapacityMessage : string :=
  "Engine capacity is required for petrol scooters".
Definition batteryCapacityMessage : string :=
  "Battery capacity is required for electric scooters".

(** The messages of the two capacity paths. *)
Definition capacityErrors (d : Scooter) : list string :=
  firstFailure
    [(customValidator (engineCapacityValidator d) (engineCapacity d),
      engineCapacityMessage)]
  ++ firstFailure
    [(customValidator (batteryCapacityValidator d) (batteryCapacity d),
      batteryCapacityMessage)].

(** The messages of the paths declared before [engineCapacity]. *)
Definition errorsBeforeCapacity (d : Scooter) : list string :=
  firstFailure
    [(requiredString (name d), "Scooter name is required");
     (maxLength 100 (name d), "Scooter name cannot exceed 100 characters")]
  ++ firstFailure
    [(requiredString (brand d), "Brand is required");
     (maxLength 50 (brand d), "Brand cannot exceed 50 characters")]
  ++ firstFailure
    [(requiredString (condition d), "Condition is required");
     (enum conditionValues (condition d),
      "Condition must be one of: Excellent, Good, Fair, Poor")]
  ++ firstFailure
    [(requiredNumber (presentPrice d), "Present price is required");
     (minNumber 0 (presentPrice d), "Present price cannot be negative")]
  ++ firstFailure
    [(requiredNumber (pastPrice d), "Original price is required");
     (minNumber 0 (pastPrice d), "Original price cannot be negative")]
  ++ firstFailure
    [(requiredString (type d), "Scooter type is required");
     (enum typeValues (type d), "Type must be either Petrol or Electric")].

(** The messages of the paths declared after [batteryCapacity]; the last
    two are mongoose's default messages. *)
Definition errorsAfterCapacity (d : Scooter) : list string :=
  firstFailure
    [(maxLength 1000 (description d),
      "Description cannot exceed 1000 characters")]
  ++ firstFailure
    [(requiredString (seller_email d), "Seller email is required");
     (matchRegex emailPattern (seller_email d), "Please enter a valid email")]
  ++ firstFailure
    [(matchRegex emailPattern (contactInfo_email d),
      "Please enter a valid email")]
  ++ firstFailure
    [(enum availabilityValues (Some (availability d)),
      "`" ++ availability d
      ++ "` is not a valid enum value for path `availability`.")]
  ++ firstFailure
    [(0 <=? viewCount d,
      "Path `viewCount` ("
      ++ DecimalString.NilZero.string_of_int (Z.to_int (viewCount d))
      ++ ") is less than minimum allowed value (0).")].

(** Document validation, as [save] runs it before the [pre('save')] hooks. *)
Definition validate (d : Scooter) : list string :=
  errorsBeforeCapacity d ++ capacityErrors d ++ errorsAfterCapacity d.

(** ** Virtuals *)

(** [scooterSchema.virtual('discount')]. *)
Definition discount (d : Scooter) : Z :=
  match pastPrice d, presentPrice d with
  | Some past, Some present =>
      if truthyQ (Some past) && truthyQ (Some present)
      then round (((past - present) / past) * 100)%Q
      else 0
  | _, _ => 0
  end.

(** [scooterSchema.virtual('priceDifference')]. *)
Definition priceDifference (d : Scooter) : Q :=
  match pastPrice d, presentPrice d with
  | Some past, Some present =>
      if truthyQ (Some past) && truthyQ (Some present)
      then (past - present)%Q
      else 0%Q
  | _, _ => 0%Q
  end.

(** ** The [pre('save')] hook *)

(** Its first statement:
    [if (!this.contactInfo.email && this.seller.email)
       this.contactInfo.email = this.seller.email]. *)
Definition backfillContactEmail (d : Scooter) : Scooter :=
  if negb (truthy (contactInfo_email d)) && truthy (seller_email d)
  then set_contactInfo_email (seller_email d) d
  else d.

Definition preSave (d : Scooter) : Result Scooter :=
  let d1 := backfillContactEmail d in
  if is_str (type d1) "Petrol" && negb (truthy (engineCapacity d1))
  then inl (OtherError (Some engineCapacityMessage))
  else if is_str (type d1) "Electric" && negb (truthy (batteryCapacity d1))
  then inl (OtherError (Some batteryCapacityMessage))
  else inr d1.

(** ** [Document.prototype.save] *)

Definition findById (id : ObjectId) (s : Collection) : option Scooter :=
  find (fun x => N.eqb (_id x) id) s.

Definition replaceDoc (d : Scooter) (s : Collection) : Collection :=
  map (fun x => if N.eqb (_id x) (_id d) then d else x) s.

(** The [timestamps: true] option: a new document gets both stamps, a
    modified one a new [updatedAt]. *)
Definition stamp (now : Z) (isNew modified : bool) (d : Scooter) : Scooter :=
  if isNew then set_updatedAt now (set_createdAt now d)
  else if modified then set_updatedAt now d
  else d.

(** [doc.save()] at time [now]: validation, then the hook, then the write.
    [isNew] tells a document made by [new Scooter(...)] from one read from
    the collection; [modified] is [doc.isModified()]. *)
Definition save (now : Z) (isNew modified : bool) (d : Scooter) (s : Collection)
  : Result (Collection * Scooter) :=
  let d0 := stamp now isNew modified d in
  match validate d0 with
  | [] =>
      d1 <- preSave d0 ;;
      inr (if isNew then (s ++ [d1])%list else replaceDoc d1 s, d1)
  | errors => inl (ValidationError errors)
  end.

(** ** Instance methods *)

Definition incrementViewCount (now : Z) (d : Scooter) (s : Collection)
  : Result (Collection * Scooter) :=
  save now false true (set_viewCount (viewCount d + 1) d) s.

Definition markAsSold (now : Z) (d : Scooter) (s : Collection)
  : Result (Collection * Scooter) :=
  save now false (negb (String.eqb (availability d) "sold"))
    (set_availability "sold" d) s.

End Model.

(** ** Queries

    The filter object a handler or a static hands to [find],
    [countDocuments] or [$match].  A key the handler did not set is [None]. *)

Record PriceBounds : Type := mkPriceBounds {
  gte : option JsNumber;            (* $gte *)
  lte : option JsNumber             (* $lte *)
}.

Record Filter : Type := mkFilter {
  f_isActive : option bool;
  f_availability : option string;
  f_type : option string;
  f_condition : option string;
  f_brand : option string;          (* { $regex: brand, $options: 'i' } *)
  f_presentPrice : option PriceBounds;
  f_or : option string              (* $or over name, brand, description *)
}.

Section Queries.

Context {M : Platform}.

(** A condition that is absent holds. *)
Definition holds {A : Type} (c : option A) (test : A -> bool) : bool :=
  match c with
  | Some a => test a
  | None => true
  end.

(** Casting a price bound to the Number path: NaN does not cast. *)
Definition castBound (b : option JsNumber) : Result (option Z) :=
  match b with
  | None => inr None
  | Some (JNum z) => inr (Some z)
  | Some _ => inl CastError
  end.

Definition compileRegex (pattern : option string)
  : Result (option (string -> bool)) :=
  match pattern with
  | None => inr None
  | Some p =>
      match regexCompile p true with
      | Some test => inr (Some test)
      | None => inl (OtherError None)
      end
  end.

(** A regular expression matches no missing path. *)
Definition regexOn (test : string -> bool) (v : option string) : bool :=
  match v with
  | Some s => test s
  | None => false
  end.

Definition inBounds (lo hi : option Z) (v : option Q) : bool :=
  match v with
  | Some p =>
      holds lo (fun z => Qle_bool (inject_Z z) p)
      && holds hi (fun z => Qle_bool p (inject_Z z))
  | None => false
  end.

(** The documents a filter selects, or the error of a filter MongoDB or
    mongoose rejects. *)
Definition compileFilter (f : Filter) : Result (Scooter -> bool) :=
  brandRe <- compileRegex (f_brand f) ;;
  bounds <- match f_presentPrice f with
            | None => inr None
            | Some b =>
                lo <- castBound (gte b) ;;
                hi <- castBound (lte b) ;;
                inr (Some (lo, hi))
            end ;;
  searchRe <- compileRegex (f_or f) ;;
  inr (fun d =>
         holds (f_isActive f) (Bool.eqb (isActive d))
         && holds (f_availability f) (String.eqb (availability d))
         && holds (f_type f) (is_str (type d))
         && holds (f_condition f) (is_str (condition d))
         && holds brandRe (fun test => regexOn test (brand d))
         && holds bounds (fun '(lo, hi) => inBounds lo hi (presentPrice d))
         && holds searchRe (fun test =>
              regexOn test (name d) || regexOn test (brand d)
              || regexOn test (description d))).

(** [.skip(skip).limit(limit)]: MongoDB rejects a skip that is negative or
    not a number and a limit that is not a number; a limit of 0 is no limit
    and a negative limit is its absolute value. *)
Definition window (skip limit : JsNumber) (l : list Scooter)
  : Result (list Scooter) :=
  match skip, limit with
  | JNum k, JNum n =>
      if k <? 0 then inl (OtherError None)
      else
        let rest := skipn (Z.to_nat k) l in
        inr (if n =? 0 then rest else firstn (Z.to_nat (Z.abs n)) rest)
  | _, _ => inl (OtherError None)
  end.

(** [Model.find(filter).sort(sort).skip(skip).limit(limit).lean()]. *)
Definition findDocs (f : Filter) (sort : string) (skip limit : JsNumber)
  (s : Collection) : Result (list Scooter) :=
  p <- compileFilter f ;;
  window skip limit (sortDocs sort (filter p s)).

(** [Model.countDocuments(filter)]. *)
Definition countDocuments (f : Filter) (s : Collection) : Result Z :=
  p <- compileFilter f ;;
  inr (Z.of_nat (List.length (filter p s))).

(** ** Statics: the filter each one queries with *)

Definition findAvailable : Filter :=
  mkFilter (Some true) (Some "available") None None None None None.

Definition findByType (type : string) : Filter :=
  mkFilter (Some true) (Some "available") (Some type) None None None None.

Definition findByPriceRange (minPrice maxPrice : JsNumber) : Filter :=
  mkFilter (Some true) (Some "available") None None None
    (Some (mkPriceBounds (Some minPrice) (Some maxPrice))) None.

End Queries.

(** ** The handlers ([routes/scooterRoutes.js]) *)

(** [req.query], each parameter a string or absent. *)
Record Query : Type := mkQuery {
  q_page : option string;
  q_limit : option string;
  q_sort : option string;
  q_type : option string;
  q_condition : option string;
  q_minPrice : option string;
  q_maxPrice : option string;
  q_brand : option string;
  q_search : option string;
  q_availability : option string
}.

Definition noQuery : Query :=
  mkQuery None None None None None None None None None None.

(** The part of [req.body] that reaches the modelled paths, as the schema
    casts and normalises it; [b_seller_email] is [req.body.seller?.email] and
    [b_contactInfo_email] is [req.body.contactInfo?.email]. *)
Record Body : Type := mkBody {
  b_name : option string;
  b_brand : option string;
  b_description : option string;
  b_condition : option string;
  b_type : option string;
  b_engineCapacity : option string;
  b_batteryCapacity : option string;
  b_presentPrice : option Q;
  b_pastPrice : option Q;
  b_seller_email : option string;
  b_sellerEmail : option string;
  b_contactInfo_email : option string;
  b_availability : option string;
  b_isActive : option bool;
  b_viewCount : option Z
}.

Record Pagination : Type := mkPagination {
  currentPage : JsNumber;
  totalPages : JsNumber;
  totalCount : Z;
  hasNextPage : bool;
  hasPrevPage : bool
}.

(** A price aggregate is [null] ([None]) when no matched document has a
    numeric [presentPrice]. *)
Record PriceStats : Type := mkPriceStats {
  avgPrice : option Q;
  minPrice : option Q;
  maxPrice : option Q
}.

Record Statistics : Type := mkStatistics {
  total : Z;
  available : Z;
  sold : Z;
  petrol : Z;
  electric : Z;
  priceStats : PriceStats
}.

(** What the JSON body carries besides [message]. *)
Inductive Payload : Type :=
| NoData                                             (* { message } *)
| Doc (data : Scooter)                               (* data: scooter *)
| Page (scooters : list Scooter) (pagination : Pagination)
| Stats (data : Statistics)
| Errors (errors : list string)                      (* errors: [...] *)
| Failure (error : MongooseError).                   (* error: error.message *)

Record Response : Type := mkResponse {
  status : Z;
  message : string;
  payload : Payload
}.

Definition rupee : string :=
  String (ascii_of_nat 226) (String (ascii_of_nat 130)
    (String (ascii_of_nat 185) EmptyString)).

Section Handlers.

Context {M : Platform}.

(** A destructuring default: it applies to [undefined] only. *)
Definition orDefault (v : option string) (d : string) : string :=
  match v with
  | Some s => s
  | None => d
  end.

(** [parseInt(page)] with [page = 1] by default, and likewise [limit = 10]. *)
Definition parseIntOr (v : option string) (d : Z) : JsNumber :=
  match v with
  | Some s => parseInt s
  | None => JNum d
  end.

Definition pageNum (q : Query) : JsNumber := parseIntOr (q_page q) 1.
Definition limitNum (q : Query) : JsNumber := parseIntOr (q_limit q) 10.
Definition skipOf (q : Query) : JsNumber :=
  numMul (numSub (pageNum q) (JNum 1)) (limitNum q).
Definition sortOf (q : Query) : string := orDefault (q_sort q) "-createdAt".

(** [if (v) filter.key = v]: the key is set when [v] is truthy. *)
Definition ifTruthy (v : option string) : option string :=
  if truthy v then v else None.

(** [if (v && values.includes(v)) filter.key = v]. *)
Definition enumParam (values : list string) (v : option string)
  : option string :=
  match v with
  | Some x => if truthy v && includes values x then Some x else None
  | None => None
  end.

(** [if (v) bounds.key = parseInt(v)]. *)
Definition boundParam (v : option string) : option JsNumber :=
  match v with
  | Some x => if truthy v then Some (parseInt x) else None
  | None => None
  end.

(** The filter object of [GET /]. *)
Definition buildFilter (q : Query) : Filter :=
  mkFilter
    (Some true)
    (Some (orDefault (q_availability q) "available"))
    (enumParam typeValues (q_type q))
    (enumParam conditionValues (q_condition q))
    (ifTruthy (q_brand q))
    (if truthy (q_minPrice q) || truthy (q_maxPrice q)
     then Some (mkPriceBounds (boundParam (q_minPrice q))
                  (boundParam (q_maxPrice q)))
     else None)
    (ifTruthy (q_search q)).

(** The [pagination] object every list handler builds. *)
Definition paginationOf (q : Query) (count : Z) : Pagination :=
  let pages := ceilDiv count (limitNum q) in
  mkPagination (pageNum q) pages count
    (numLt (pageNum q) pages) (numGt (pageNum q) (JNum 1)).

(** The common tail of the three list handlers: the page, the count, the
    response; a rejected query goes to the [catch] block. *)
Definition respondPage (f : Filter) (q : Query) (okMessage errMessage : string)
  (s : Collection) : Response :=
  match
    docs <- findDocs f (sortOf q) (skipOf q) (limitNum q) s ;;
    count <- countDocuments f s ;;
    inr (docs, count)
  with
  | inr (docs, count) =>
      mkResponse 200 okMessage (Page docs (paginationOf q count))
  | inl e => mkResponse 500 errMessage (Failure e)
  end.

(** [router.get('/')]. *)
Definition getScooters (q : Query) (s : Collection) : Response :=
  respondPage (buildFilter q) q
    "Scooters retrieved successfully" "Error fetching scooters" s.

(** [router.get('/:id')]. *)
Definition getScooterById (now : Z) (id : string) (s : Collection)
  : Collection * Response :=
  match castObjectId id with
  | None => (s, mkResponse 400 "Invalid scooter ID format" NoData)
  | Some oid =>
      match findById oid s with
      | None => (s, mkResponse 404 "Scooter not found" NoData)
      | Some scooter =>
          match incrementViewCount now scooter s with
          | inr (s', scooter') =>
              (s', mkResponse 200 "Scooter retrieved successfully"
                     (Doc scooter'))
          | inl CastError =>
              (s, mkResponse 400 "Invalid scooter ID format" NoData)
          | inl e => (s, mkResponse 500 "Error fetching scooter" (Failure e))
          end
      end
  end.

(** [new Scooter(scooterData)] of [router.post('/')]: the seller and contact
    e-mails the handler computes, the schema defaults, a new [_id]. *)
Definition newScooter (b : Body) (s : Collection) : Scooter :=
  mkScooter (newObjectId s)
    (b_name b) (b_brand b) (b_description b) (b_condition b) (b_type b)
    (b_engineCapacity b) (b_batteryCapacity b)
    (b_presentPrice b) (b_pastPrice b)
    (orElse (orElse (b_seller_email b) (b_sellerEmail b))
        (Some "noreply@example.com"))
    (orElse (orElse (b_contactInfo_email b) (b_seller_email b))
       (b_sellerEmail b))
    (orDefault (b_availability b) "available")
    (match b_isActive b with Some v => v | None => true end)
    (match b_viewCount b with Some v => v | None => 0 end)
    0 0.

(** [router.post('/')]. *)
Definition createScooter (now : Z) (b : Body) (s : Collection)
  : Collection * Response :=
  match save now true true (newScooter b s) s with
  | inr (s', saved) =>
      (s', mkResponse 201 "Scooter listed successfully" (Doc saved))
  | inl (ValidationError errors) =>
      (s, mkResponse 400 "Validation error" (Errors errors))
  | inl e => (s, mkResponse 500 "Error creating scooter listing" (Failure e))
  end.

(** [router.delete('/:id')]:
    [findByIdAndUpdate(id, { isActive: false }, { new: true })], which runs
    neither the validators nor the save hook and renews [updatedAt]. *)
Definition deleteScooter (now : Z) (id : string) (s : Collection)
  : Collection * Response :=
  match castObjectId id with
  | None => (s, mkResponse 400 "Invalid scooter ID format" NoData)
  | Some oid =>
      match findById oid s with
      | None => (s, mkResponse 404 "Scooter not found" NoData)
      | Some scooter =>
          let scooter' := set_updatedAt now (set_isActive false scooter) in
          (replaceDoc scooter' s,
           mkResponse 200 "Scooter listing deleted successfully"
             (Doc scooter'))
      end
  end.

(** [router.patch('/:id/sold')]. *)
Definition markScooterSold (now : Z) (id : string) (s : Collection)
  : Collection * Response :=
  match castObjectId id with
  | None => (s, mkResponse 400 "Invalid scooter ID format" NoData)
  | Some oid =>
      match findById oid s with
      | None => (s, mkResponse 404 "Scooter not found" NoData)
      | Some scooter =>
          match markAsSold now scooter s with
          | inr (s', scooter') =>
              (s', mkResponse 200 "Scooter marked as sold successfully"
                     (Doc scooter'))
          | inl CastError =>
              (s, mkResponse 400 "Invalid scooter ID format" NoData)
          | inl e =>
              (s, mkResponse 500 "Error marking scooter as sold" (Failure e))
          end
      end
  end.

(** [router.get('/type/:type')]. *)
Definition getScootersByType (type : string) (q : Query) (s : Collection)
  : Response :=
  if negb (includes typeValues type)
  then mkResponse 400 "Invalid scooter type. Must be Petrol or Electric" NoData
  else
    respondPage (findByType type) q
      (type ++ " scooters retrieved successfully")
      "Error fetching scooters by type" s.

(** [router.get('/price-range/:minPrice/:maxPrice')]. *)
Definition getScootersByPriceRange (minPrice maxPrice : string) (q : Query)
  (s : Collection) : Response :=
  let min := parseInt minPrice in
  let max := parseInt maxPrice in
  if isNaN min || isNaN max || numLt min (JNum 0) || numLt max (JNum 0)
     || numGt min max
  then mkResponse 400 "Invalid price range" NoData
  else
    respondPage (findByPriceRange min max) q
      (match min, max with
       | JNum a, JNum b =>
           "Scooters in price range " ++ rupee ++ toLocaleString a ++ " - "
           ++ rupee ++ toLocaleString b ++ " retrieved successfully"
       | _, _ => ""
       end)
      "Error fetching scooters by price range" s.

(** *** Statistics *)

Definition Qmin' (a b : Q) : Q := if Qle_bool a b then a else b.
Definition Qmax' (a b : Q) : Q := if Qle_bool a b then b else a.

Definition sumQ (l : list Q) : Q := fold_right Qplus 0%Q l.

(** [$avg], [$min], [$max] over the numeric values of a group. *)
Definition avgOf (l : list Q) : option Q :=
  match l with
  | [] => None
  | _ => Some (sumQ l / inject_Z (Z.of_nat (List.length l)))%Q
  end.

Definition minOf (l : list Q) : option Q :=
  match l with
  | [] => None
  | x :: r => Some (fold_left Qmin' r x)
  end.

Definition maxOf (l : list Q) : option Q :=
  match l with
  | [] => None
  | x :: r => Some (fold_left Qmax' r x)
  end.

(** The numeric values of [$presentPrice] in a list of documents. *)
Fixpoint pricesOf (l : list Scooter) : list Q :=
  match l with
  | d :: r =>
      match presentPrice d with
      | Some p => p :: pricesOf r
      | None => pricesOf r
      end
  | [] => []
  end.

(** [Scooter.aggregate([{ $match }, { $group: { _id: null, ... } }])]: one
    group when a document matches, none otherwise. *)
Definition aggregatePrices (f : Filter) (s : Collection)
  : Result (list PriceStats) :=
  p <- compileFilter f ;;
  inr (match filter p s with
       | [] => []
       | matched =>
           let prices := pricesOf matched in
           [mkPriceStats (avgOf prices) (minOf prices) (maxOf prices)]
       end).

(** [router.get('/stats/overview')]. *)
Definition getStatistics (s : Collection) : Response :=
  match
    totalScooters <- countDocuments
      (mkFilter (Some true) None None None None None None) s ;;
    availableScooters <- countDocuments
      (mkFilter (Some true) (Some "available") None None None None None) s ;;
    soldScooters <- countDocuments
      (mkFilter (Some true) (Some "sold") None None None None None) s ;;
    petrolScooters <- countDocuments
      (mkFilter (Some true) None (Some "Petrol") None None None None) s ;;
    electricScooters <- countDocuments
      (mkFilter (Some true) None (Some "Electric") None None None None) s ;;
    stats <- aggregatePrices
      (mkFilter (Some true) (Some "available") None None None None None) s ;;
    inr (mkStatistics totalScooters availableScooters soldScooters
           petrolScooters electricScooters
           (match stats with
            | st :: _ => st
            | [] => mkPriceStats (Some 0%Q) (Some 0%Q) (Some 0%Q)
            end))
  with
  | inr data =>
      mkResponse 200 "Scooter statistics retrieved successfully" (Stats data)
  | inl e => mkResponse 500 "Error fetching scooter statistics" (Failure e)
  end.

End Handlers.

(** ** The service as a transition system

    The requests of the modelled handlers ([PUT /:id] is not among them) and
    the collection after a sequence of them, each at its own time. *)

Inductive Request : Type :=
| GetScooters (q : Query)
| GetScooterById (id : string)
| CreateScooter (b : Body)
| DeleteScooter (id : string)
| MarkScooterSold (id : string)
| GetScootersByType (type : string) (q : Query)
| GetScootersByPriceRange (minPrice maxPrice : string) (q : Query)
| GetStatistics.

Section Service.

Context {M : Platform}.

Definition handle (now : Z) (r : Request) (s : Collection)
  : Collection * Response :=
  match r with
  | GetScooters q => (s, getScooters q s)
  | GetScooterById id => getScooterById now id s
  | CreateScooter b => createScooter now b s
  | DeleteScooter id => deleteScooter now id s
  | MarkScooterSold id => markScooterSold now id s
  | GetScootersByType t q => (s, getScootersByType t q s)
  | GetScootersByPriceRange a b q => (s, getScootersByPriceRange a b q s)
  | GetStatistics => (s, getStatistics s)
  end.

Fixpoint run (trace : list (Z * Request)) (s : Collection) : Collection :=
  match trace with
  | (now, r) :: rest => run rest (fst (handle now r s))
  | [] => s
  end.

(** [n] detail fetches of the same listing, one after the other. *)
Fixpoint fetchTimes (times : list Z) (id : string) (s : Collection)
  : Collection :=
  match times with
  | now :: rest => fetchTimes rest id (fst (getScooterById now id s))
  | [] => s
  end.

(** ** Vocabulary of the specification *)

(** The capacity field the engine type asks for is empty or absent. *)
Definition capacityMissing (d : Scooter) : bool :=
  is_str (type d) "Petrol" && negb (truthy (engineCapacity d))
  || is_str (type d) "Electric" && negb (truthy (batteryCapacity d)).

(** No path other than the two capacity paths is invalid. *)
Definition otherPathsValid (d : Scooter) : bool :=
  match errorsBeforeCapacity d, errorsAfterCapacity d with
  | [], [] => true
  | _, _ => false
  end.

(** The document satisfies the invariants of the data model: [save] would
    accept it as it is. *)
Definition wellFormed (d : Scooter) : bool :=
  otherPathsValid d && negb (capacityMissing d).




(** What the three mutations of an existing listing store in its place. *)
Definition afterFetch (now : Z) (x : Scooter) : Scooter :=
  backfillContactEmail
    (stamp now false true (set_viewCount (viewCount x + 1) x)).

Definition afterSold (now : Z) (x : Scooter) : Scooter :=
  backfillContactEmail
    (stamp now false (negb (String.eqb (availability x) "sold"))
       (set_availability "sold" x)).

Definition afterDelete (now : Z) (x : Scooter) : Scooter :=
  set_updatedAt now (set_isActive false x).

(** The ways one request can change the collection. *)
Inductive Step (s : Collection) : Collection -> Prop :=
| StepNone : Step s s
| StepInsert (d : Scooter) :
    _id d = newObjectId s -> Step s (s ++ [d])%list
| StepFetch (now : Z) (x : Scooter) :
    findById (_id x) s = Some x -> Step s (replaceDoc (afterFetch now x) s)
| StepSold (now : Z) (x : Scooter) :
    findById (_id x) s = Some x -> Step s (replaceDoc (afterSold now x) s)
| StepDelete (now : Z) (x : Scooter) :
    findById (_id x) s = Some x -> Step s (replaceDoc (afterDelete now x) s).

(** The listing [oid] is in the collection and [P] holds of it. *)
Definition holdsAt (P : Scooter -> Prop) (oid : ObjectId) (s : Collection)
  : Prop :=
  (exists y, findById oid s = Some y)
  /\ forall y, In y s -> _id y = oid -> P y.

End Service.

(** [n] is [x] rounded to the nearest integer, a tie going up. *)
Definition nearestInteger (x : Q) (n : Z) : Prop :=
  (inject_Z n - (1 # 2) <= x)%Q /\ (x < inject_Z n + (1 # 2))%Q.

(** [t] is [ceil (n / l)] for [l > 0]: the least [t] with [n <= t * l]. *)
Definition isCeiling (n l t : Z) : Prop :=
  (t - 1) * l < n <= t * l.

(** The page of [l] that starts at [offset]: its [i]-th document is the
    [(offset + i)]-th of [l]. *)
Definition isWindow {A : Type} (l : list A) (offset : nat) (page : list A)
  : Prop :=
  forall i, (i < List.length page)%nat ->
            nth_error page i = nth_error l (offset + i).

(** The listings of a response that carries a page. *)
Definition resultSet (r : Response) : list Scooter :=
  match payload r with
  | Page scooters _ => scooters
  | _ => []
  end.

Definition withType (v : option string) (q : Query) : Query :=
  mkQuery (q_page q) (q_limit q) (q_sort q) v (q_condition q) (q_minPrice q)
    (q_maxPrice q) (q_brand q) (q_search q) (q_availability q).

Definition withCondition (v : option string) (q : Query) : Query :=
  mkQuery (q_page q) (q_limit q) (q_sort q) (q_type q) v (q_minPrice q)
    (q_maxPrice q) (q_brand q) (q_search q) (q_availability q).

(** [presentPrice] lies in the closed interval [[lo, hi]]. *)
Definition priceWithin (lo hi : Z) (d : Scooter) : Prop :=
  exists p, presentPrice d = Some p
            /\ (inject_Z lo <= p)%Q /\ (p <= inject_Z hi)%Q.

(** The number of documents of [s] with the property [P]. *)
Definition countWhere (P : Scooter -> bool) (s : Collection) : Z :=
  Z.of_nat (List.length (filter P s)).

(** The listings the price aggregates range over. *)
Definition forSale (d : Scooter) : bool :=
  isActive d && String.eqb (availability d) "available".

Definition isAverage (l : list Q) (a : Q) : Prop :=
  (a * inject_Z (Z.of_nat (List.length l)) == sumQ l)%Q.

Definition isMinimum (l : list Q) (m : Q) : Prop :=
  In m l /\ forall p, In p l -> (m <= p)%Q.

Definition isMaximum (l : list Q) (m : Q) : Prop :=
  In m l /\ forall p, In p l -> (p <= m)%Q.

(** Two documents that differ at most in [updatedAt]. *)
Definition sameButUpdatedAt (a b : Scooter) : Prop :=
  set_updatedAt 0 a = set_updatedAt 0 b.

(** ** A stand-in for MongoDB, for the examples

    Documents keep their insertion order whatever the sort, an id is 24
    hexadecimal digits, a new id is one more than the largest, a pattern
    matches the strings it occurs in, the e-mail pattern those with an [@]. *)

Fixpoint hasSubstring (p s : string) : bool :=
  String.prefix p s
  || match s with
     | String _ r => hasSubstring p r
     | EmptyString => false
     end.

Definition exampleRegex (pattern : string) (ignoreCase : bool)
  : option (string -> bool) :=
  if String.eqb pattern "(" then None
  else if String.eqb pattern
            "^\w+([.-]?\w+)*@\w+([.-]?\w+)*(\.\w{2,3})+$"
  then Some (hasSubstring "@")
  else Some (hasSubstring pattern).

Fixpoint allDigits (radix : Z) (s : string) : bool :=
  match s with
  | String c r =>
      match digitValue radix c with
      | Some _ => allDigits radix r
      | None => false
      end
  | EmptyString => true
  end.

Definition exampleCast (id : string) : option ObjectId :=
  if (String.length id =? 24)%nat && allDigits 16 id
  then match readDigits 16 id None with
       | Some v => Some (Z.to_N v)
       | None => None
       end
  else None.

Definition largestId (s : Collection) : N :=
  fold_right N.max 0%N (map _id s).

Definition examplePlatform : Platform.
Proof.
  refine {| regexCompile := exampleRegex;
            sortDocs := fun _ l => l;
            castObjectId := exampleCast;
            newObjectId := fun s => N.succ (largestId s);
            toLocaleString := fun z =>
              DecimalString.NilZero.string_of_int (Z.to_int z) |}.
  - intros _ l. apply Permutation_refl.
  - intros s.
    assert (B : forall x, In x (map _id s) -> (x <= largestId s)%N).
    { unfold largestId. induction (map _id s) as [|y l IH]; simpl.
      - intros x [].
      - intros x [-> | Hx]; [lia | specialize (IH x Hx); lia]. }
    intros H. specialize (B _ H). lia.
Defined.

(** Example documents: a petrol scooter as the specification's scenario
    lists it, and variants of it. *)

Definition petrolScooter : Scooter :=
  mkScooter 1%N (Some "Activa") (Some "Honda") None (Some "Good")
    (Some "Petrol") (Some "150cc") None (Some 150000%Q) (Some 200000%Q)
    (Some "seller@example.com") None "available" true 0 0 0.

Definition petrolNoEngine : Scooter :=
  mkScooter 1%N (Some "Activa") (Some "Honda") None (Some "Good")
    (Some "Petrol") None None (Some 150000%Q) (Some 200000%Q)
    (Some "seller@example.com") None "available" true 0 0 0.

Definition petrolEmptyEngine : Scooter :=
  mkScooter 1%N (Some "Activa") (Some "Honda") None (Some "Good")
    (Some "Petrol") (Some "") None (Some 150000%Q) (Some 200000%Q)
    (Some "seller@example.com") None "available" true 0 0 0.


Definition freeScooter : Scooter :=
  mkScooter 1%N (Some "Activa") (Some "Honda") None (Some "Good")
    (Some "Petrol") (Some "150cc") None (Some 0%Q) (Some 100%Q)
    (Some "seller@example.com") None "available" true 0 0 0.

Definition petrolBody : Body :=
  mkBody (Some "Activa") (Some "Honda") None (Some "Good") (Some "Petrol")
    (Some "150cc") None (Some 150000%Q) (Some 200000%Q)
    None (Some "seller@example.com") None None None None.

(** A showroom: three petrol and two electric scooters for sale, and a
    petrol one that is sold. *)

Definition listing (id : N) (ty : string) (price : Q) (avail : string)
  (active : bool) : Scooter :=
  mkScooter id (Some "Activa") (Some "Honda") None (Some "Good") (Some ty)
    (if String.eqb ty "Petrol" then Some "110cc" else None)
    (if String.eqb ty "Electric" then Some "3kWh" else None)
    (Some price) (Some (price + 10000)%Q)
    (Some "seller@example.com") (Some "seller@example.com")
    avail active 0 0 0.

Definition showroom : Collection :=
  [listing 1 "Petrol" 50000 "available" true;
   listing 2 "Petrol" 60000 "available" true;
   listing 3 "Petrol" 70000 "available" true;
   listing 4 "Electric" 80000 "available" true;
   listing 5 "Electric" 90000 "available" true;
   listing 6 "Petrol" 40000 "sold" true].

Definition idOne : string := "000000000000000000000001".

Definition pageTwoOfTwo : Query :=
  mkQuery (Some "2") (Some "2") None None None None None None None None.


(** ** The invariants of the data model, spelled out

    What the schema's validators and the hook together ask of the modelled
    paths. *)

Definition nonEmptyUpTo (k : nat) (v : option string) : Prop :=
  exists s, v = Some s /\ s <> "" /\ (String.length s <= k)%nat.

Definition oneOf (values : list string) (v : option string) : Prop :=
  exists s, v = Some s /\ In s values.

Definition notNegative (v : option Q) : Prop :=
  exists p, v = Some p /\ (0 <= p)%Q.

Definition filled (v : option string) : Prop :=
  exists s, v = Some s /\ s <> "".

Section Invariants.

Context {M : Platform}.

Record listingInvariants (d : Scooter) : Prop := mkInvariants {
  inv_name : nonEmptyUpTo 100 (name d);
  inv_brand : nonEmptyUpTo 50 (brand d);
  inv_condition : oneOf conditionValues (condition d);
  inv_presentPrice : notNegative (presentPrice d);
  inv_pastPrice : notNegative (pastPrice d);
  inv_type : oneOf typeValues (type d);
  inv_engineCapacity : type d = Some "Petrol" -> filled (engineCapacity d);
  inv_batteryCapacity : type d = Some "Electric" -> filled (batteryCapacity d);
  inv_description :
    forall s, description d = Some s -> (String.length s <= 1000)%nat;
  inv_seller_email :
    exists e, seller_email d = Some e /\ e <> ""
              /\ regexTest emailPattern false e = true;
  inv_contactInfo_email :
    forall e, contactInfo_email d = Some e -> e <> "" ->
              regexTest emailPattern false e = true;
  inv_availability : In (availability d) availabilityValues;
  inv_viewCount : 0 <= viewCount d
}.

End Invariants.

(** The query of [GET /] that asks for what [GET /type/:type] returns, and
    the one that asks for what [GET /price-range/:min/:max] returns: the
    same [page], [limit] and [sort], and the path segments as parameters. *)
Definition typeQuery (t : string) (q : Query) : Query :=
  mkQuery (q_page q) (q_limit q) (q_sort q) (Some t) None None None None
    None None.

Definition priceQuery (a b : string) (q : Query) : Query :=
  mkQuery (q_page q) (q_limit q) (q_sort q) None None (Some a) (Some b) None
    None None.

Definition withPage (v : option string) (q : Query) : Query :=
  mkQuery v (q_limit q) (q_sort q) (q_type q) (q_condition q) (q_minPrice q)
    (q_maxPrice q) (q_brand q) (q_search q) (q_availability q).

(** [presentPrice] is at least [lo]; at most [hi]. *)
Definition priceAtLeast (lo : Z) (d : Scooter) : Prop :=
  exists p, presentPrice d = Some p /\ (inject_Z lo <= p)%Q.

Definition priceAtMost (hi : Z) (d : Scooter) : Prop :=
  exists p, presentPrice d = Some p /\ (p <= inject_Z hi)%Q.

Section Counting.

Context {M : Platform}.

(** The number of [GET /:id] requests of a trace whose id is [oid]. *)
Fixpoint fetchesOf (oid : ObjectId) (trace : list (Z * Request)) : Z :=
  match trace with
  | (_, GetScooterById id) :: rest =>
      match castObjectId id with
      | Some o => if N.eqb o oid then 1 + fetchesOf oid rest
                  else fetchesOf oid rest
      | None => fetchesOf oid rest
      end
  | _ :: rest => fetchesOf oid rest
  | [] => 0
  end.

End Counting.

(** The query with the [page], [limit] and [sort] of [q] and no filter. *)
Definition plainQuery (q : Query) : Query :=
  mkQuery (q_page q) (q_limit q) (q_sort q) None None None None None None
    None.

(** [presentPrice] is a number between the integers [lo] and [hi]. *)
Definition priceBetween (lo hi : Z) (d : Scooter) : bool :=
  match presentPrice d with
  | Some p => Qle_bool (inject_Z lo) p && Qle_bool p (inject_Z hi)
  | None => false
  end.

(** * Properties *)

(** ** JavaScript values *)

Example parseInt_decimal : parseInt "50000" = JNum 50000.
Proof. reflexivity. Qed.

Example parseInt_negative : parseInt "-1" = JNum (-1).
Proof. reflexivity. Qed.

Example parseInt_leading_integer : parseInt "12abc" = JNum 12.
Proof. reflexivity. Qed.

Example parseInt_hexadecimal : parseInt "0x1F" = JNum 31.
Proof. reflexivity. Qed.

Example parseInt_word : parseInt "cheap" = JNaN.
Proof. reflexivity. Qed.

Example parseInt_empty : parseInt "" = JNaN.
Proof. reflexivity. Qed.



Lemma nearestInteger_unique (x : Q) (n m : Z) :
  nearestInteger x n -> nearestInteger x m -> n = m.
Proof.
  intros [Hn1 Hn2] [Hm1 Hm2].
  assert (H1 : (inject_Z n < inject_Z (m + 1))%Q)
    by (rewrite inject_Z_plus; change (inject_Z 1) with 1%Q; lra).
  assert (H2 : (inject_Z m < inject_Z (n + 1))%Q)
    by (rewrite inject_Z_plus; change (inject_Z 1) with 1%Q; lra).
  rewrite <- Zlt_Qlt in H1, H2.
  lia.
Qed.

(** ** The schema and [save] *)

Lemma validate_stamp `{Platform} now isNew modified d :
  validate (stamp now isNew modified d) = validate d.
Proof. unfold stamp. destruct isNew, modified; reflexivity. Qed.

Lemma capacityMissing_stamp now isNew modified d :
  capacityMissing (stamp now isNew modified d) = capacityMissing d.
Proof. unfold stamp. destruct isNew, modified; reflexivity. Qed.


(** A valid capacity path yields no message. *)
Lemma capacityErrors_present d :
  capacityMissing d = false -> capacityErrors d = [].
Proof.
  unfold capacityMissing, capacityErrors, customValidator,
    engineCapacityValidator, batteryCapacityValidator.
  destruct (is_str (type d) "Petrol"), (is_str (type d) "Electric"),
    (engineCapacity d) as [[|c r]|], (batteryCapacity d) as [[|c' r']|];
    simpl; intros H; try discriminate; reflexivity.
Qed.

Lemma validate_otherPathsValid `{Platform} d :
  otherPathsValid d = true -> validate d = capacityErrors d.
Proof.
  unfold otherPathsValid, validate.
  destruct (errorsBeforeCapacity d); [|discriminate].
  destruct (errorsAfterCapacity d); [|discriminate].
  intros _. simpl. apply app_nil_r.
Qed.

Lemma preSave_capacity d :
  preSave d =
  if is_str (type d) "Petrol" && negb (truthy (engineCapacity d))
  then inl (OtherError (Some engineCapacityMessage))
  else if is_str (type d) "Electric" && negb (truthy (batteryCapacity d))
  then inl (OtherError (Some batteryCapacityMessage))
  else inr (backfillContactEmail d).
Proof.
  unfold preSave, backfillContactEmail.
  destruct (negb (truthy (contactInfo_email d)) && truthy (seller_email d));
    reflexivity.
Qed.


Lemma save_ok_wellFormed `{Platform} now isNew modified d s :
  capacityMissing d = false -> otherPathsValid d = true ->
  let d1 := backfillContactEmail (stamp now isNew modified d) in
  save now isNew modified d s
  = inr (if isNew then (s ++ [d1])%list else replaceDoc d1 s, d1).
Proof.
  intros Hcap Hother. unfold save.
  rewrite validate_stamp, (validate_otherPathsValid _ Hother),
    (capacityErrors_present _ Hcap).
  rewrite <- (capacityMissing_stamp now isNew modified) in Hcap.
  rewrite preSave_capacity.
  unfold capacityMissing in Hcap. apply orb_false_elim in Hcap as [-> ->].
  reflexivity.
Qed.



(** What the client of [POST /] sees of the two rejections: an empty string
    is caught by the path validator and answered 400 with the message; an
    absent field passes validation, is caught by the hook and answered 500
    with the same message as [error]. *)
Example create_petrol_empty_engine :
  snd (@createScooter examplePlatform 5
         (mkBody (Some "Activa") (Some "Honda") None (Some "Good")
            (Some "Petrol") (Some "") None (Some 150000%Q) (Some 200000%Q)
            None (Some "seller@example.com") None None None None) [])
  = mkResponse 400 "Validation error" (Errors [engineCapacityMessage]).
Proof. reflexivity. Qed.

Example create_petrol_absent_engine :
  snd (@createScooter examplePlatform 5
         (mkBody (Some "Activa") (Some "Honda") None (Some "Good")
            (Some "Petrol") None None (Some 150000%Q) (Some 200000%Q)
            None (Some "seller@example.com") None None None None) [])
  = mkResponse 500 "Error creating scooter listing"
      (Failure (OtherError (Some engineCapacityMessage))).
Proof. reflexivity. Qed.

Example create_petrol_with_engine :
  @createScooter examplePlatform 5 petrolBody []
  = (let d := mkScooter 1%N (Some "Activa") (Some "Honda") None (Some "Good")
                (Some "Petrol") (Some "150cc") None (Some 150000%Q)
                (Some 200000%Q) (Some "seller@example.com")
                (Some "seller@example.com") "available" true 0 5 5 in
     ([d], mkResponse 201 "Scooter listed successfully" (Doc d))).
Proof. reflexivity. Qed.

(** ** The [discount] virtual *)

(** The specification's scenario: 150000 for 200000 is a discount of 25. *)
Example discount_scenario : discount petrolScooter = 25.
Proof. reflexivity. Qed.




(** The sibling virtual has the same guard: at [presentPrice = 0] it gives
    0, not [pastPrice]. *)
Example priceDifference_free : priceDifference freeScooter = 0%Q.
Proof. reflexivity. Qed.

Example priceDifference_scenario : priceDifference petrolScooter = 50000%Q.
Proof. reflexivity. Qed.

(** An absent price gives discount 0 as well. *)
Lemma discount_undefined (d : Scooter) :
  pastPrice d = None \/ presentPrice d = None -> discount d = 0.
Proof.
  unfold discount. intros [-> | ->]; [reflexivity|].
  destruct (pastPrice d); reflexivity.
Qed.

(** ** Pagination *)

Lemma ceilDiv_pos (n l : Z) :
  0 <= n -> 1 <= l -> ceilDiv n (JNum l) = JNum (- ((- n) / l))
                      /\ isCeiling n l (- ((- n) / l)).
Proof.
  intros Hn Hl. split.
  - destruct l; try lia. reflexivity.
  - unfold isCeiling.
    pose proof (Z.div_mod (- n) l ltac:(lia)).
    pose proof (Z.mod_pos_bound (- n) l ltac:(lia)).
    nia.
Qed.

Lemma window_pos `{Platform} (k n : Z) (l : list Scooter) :
  0 <= k -> 1 <= n ->
  window (JNum k) (JNum n) l
  = inr (firstn (Z.to_nat n) (skipn (Z.to_nat k) l)).
Proof.
  intros Hk Hn. unfold window.
  destruct (Z.ltb_spec k 0); [lia|].
  destruct (Z.eqb_spec n 0); [lia|].
  rewrite Z.abs_eq by lia. reflexivity.
Qed.

Lemma firstn_skipn_window {A : Type} (l : list A) (k n : nat) :
  isWindow l k (firstn n (skipn k l)).
Proof.
  intros i Hi. rewrite length_firstn in Hi.
  rewrite nth_error_firstn, nth_error_skipn.
  destruct (Nat.ltb_spec i n); [reflexivity | lia].
Qed.

(** What a list handler answers to a page [p >= 1] of size [L >= 1] when
    the filter is accepted. *)
Lemma respondPage_page `{Platform} f q okMessage errMessage s p L pred :
  compileFilter f = inr pred ->
  pageNum q = JNum p -> limitNum q = JNum L -> 1 <= p -> 1 <= L ->
  respondPage f q okMessage errMessage s
  = mkResponse 200 okMessage
      (Page
         (firstn (Z.to_nat L)
            (skipn (Z.to_nat ((p - 1) * L))
               (sortDocs (sortOf q) (filter pred s))))
         (paginationOf q (Z.of_nat (List.length (filter pred s))))).
Proof.
  intros Hf Hp HL Hp1 HL1.
  unfold respondPage, findDocs, countDocuments, skipOf.
  rewrite Hf, Hp, HL. unfold bind, numSub, numMul.
  rewrite window_pos by nia. reflexivity.
Qed.

Lemma page_properties `{Platform} q (matching : list Scooter) p L :
  pageNum q = JNum p -> limitNum q = JNum L -> 1 <= p -> 1 <= L ->
  let N := Z.of_nat (List.length matching) in
  let page := firstn (Z.to_nat L) (skipn (Z.to_nat ((p - 1) * L)) matching) in
  let pg := paginationOf q N in
  isWindow matching (Z.to_nat ((p - 1) * L)) page
  /\ Z.of_nat (List.length page) = Z.min L (Z.max 0 (N - (p - 1) * L))
  /\ currentPage pg = JNum p
  /\ totalCount pg = N
  /\ exists t, totalPages pg = JNum t
               /\ isCeiling N L t
               /\ hasNextPage pg = (p <? t)
               /\ hasPrevPage pg = (1 <? p)
               /\ (t < p -> page = [] /\ hasNextPage pg = false).
Proof.
  intros Hp HL Hp1 HL1 N page pg.
  assert (Hlen : Z.of_nat (List.length page)
                 = Z.min L (Z.max 0 (N - (p - 1) * L))).
  { unfold page, N. rewrite length_firstn, length_skipn. nia. }
  destruct (ceilDiv_pos N L ltac:(unfold N; lia) HL1) as [Hceil Hspec].
  split; [apply firstn_skipn_window|].
  split; [exact Hlen|].
  unfold pg, paginationOf. rewrite Hp, HL, Hceil. simpl.
  split; [reflexivity|]. split; [reflexivity|].
  exists (- (- N / L)).
  split; [reflexivity|]. split; [exact Hspec|].
  split; [reflexivity|]. split; [reflexivity|].
  intros Ht. split.
  - destruct page as [|x r]; [reflexivity|].
    exfalso. unfold isCeiling in Hspec. simpl List.length in Hlen. nia.
  - apply Z.ltb_ge. lia.
Qed.

(** C3. For a list query that the store accepts, with page [p >= 1] and
    limit [L >= 1] (1 and 10 when the parameters are absent) and [N]
    matching listings, [GET /] answers 200 with the window of the sorted
    matching listings that starts at offset [(p - 1) * L] and has length
    [min L (max 0 (N - (p - 1) * L))]; [totalCount = N],
    [totalPages = ceil (N / L)], [hasNextPage] iff [p < totalPages],
    [hasPrevPage] iff [p > 1]; a page beyond the last is empty and has
    [hasNextPage = false]. *)
Theorem C3_pagination `{Platform} (q : Query) (s : Collection) (p L : Z)
  (pred : Scooter -> bool) :
  compileFilter (buildFilter q) = inr pred ->
  pageNum q = JNum p -> limitNum q = JNum L -> 1 <= p -> 1 <= L ->
  let matching := sortDocs (sortOf q) (filter pred s) in
  let N := Z.of_nat (List.length matching) in
  exists page pg,
    getScooters q s
    = mkResponse 200 "Scooters retrieved successfully" (Page page pg)
    /\ Permutation matching (filter pred s)
    /\ isWindow matching (Z.to_nat ((p - 1) * L)) page
    /\ Z.of_nat (List.length page) = Z.min L (Z.max 0 (N - (p - 1) * L))
    /\ currentPage pg = JNum p
    /\ totalCount pg = N
    /\ exists t, totalPages pg = JNum t
                 /\ isCeiling N L t
                 /\ hasNextPage pg = (p <? t)
                 /\ hasPrevPage pg = (1 <? p)
                 /\ (t < p -> page = [] /\ hasNextPage pg = false).
Proof.
  intros Hf Hp HL Hp1 HL1 matching N.
  assert (HN : N = Z.of_nat (List.length (filter pred s))).
  { unfold N, matching.
    rewrite (Permutation_length (sortDocs_perm (sortOf q) (filter pred s))).
    reflexivity. }
  eexists _, _. split.
  - unfold getScooters.
    rewrite (respondPage_page _ _ _ _ _ p L pred Hf Hp HL Hp1 HL1).
    rewrite <- HN. reflexivity.
  - split; [apply sortDocs_perm|].
    exact (page_properties q matching p L Hp HL Hp1 HL1).
Qed.

Lemma pageNum_default : pageNum noQuery = JNum 1 /\ limitNum noQuery = JNum 10.
Proof. split; reflexivity. Qed.

(** The last page holds the remainder: [N mod L] listings, or [L] when [L]
    divides [N]. *)
Lemma last_page_length (N L t : Z) :
  0 < N -> 1 <= L -> isCeiling N L t ->
  Z.min L (Z.max 0 (N - (t - 1) * L))
  = if N mod L =? 0 then L else N mod L.
Proof.
  unfold isCeiling. intros HN HL [Hlo Hhi].
  pose proof (Z.div_mod N L ltac:(lia)) as Hdm.
  pose proof (Z.mod_pos_bound N L ltac:(lia)) as Hm.
  destruct (Z.eqb_spec (N mod L) 0) as [E|E].
  - assert (N / L = t) by nia. nia.
  - assert (N / L = t - 1) by nia. nia.
Qed.

(** ** Filters *)

Lemma includes_typeValues (t : string) :
  includes typeValues t = false <-> t <> "Petrol" /\ t <> "Electric".
Proof.
  unfold includes, typeValues. simpl.
  destruct (String.eqb_spec t "Petrol"), (String.eqb_spec t "Electric");
    simpl; split; try discriminate; try tauto; intros _; split; assumption.
Qed.

Lemma includes_conditionValues (c : string) :
  includes conditionValues c = false
  <-> c <> "Excellent" /\ c <> "Good" /\ c <> "Fair" /\ c <> "Poor".
Proof.
  unfold includes, conditionValues. simpl.
  destruct (String.eqb_spec c "Excellent"), (String.eqb_spec c "Good"),
    (String.eqb_spec c "Fair"), (String.eqb_spec c "Poor");
    simpl; split; try discriminate; try tauto; intros _; repeat split;
    assumption.
Qed.

Lemma is_str_eq (v : option string) (x : string) :
  is_str v x = true <-> v = Some x.
Proof.
  destruct v as [y|]; simpl; [|split; discriminate].
  rewrite String.eqb_eq. split; [intros ->; reflexivity | congruence].
Qed.

Lemma inBounds_within (lo hi : Z) (v : option Q) :
  inBounds (Some lo) (Some hi) v = true ->
  exists p, v = Some p /\ (inject_Z lo <= p)%Q /\ (p <= inject_Z hi)%Q.
Proof.
  destruct v as [p|]; simpl; [|discriminate].
  intros Hb. apply andb_prop in Hb as [Hlo Hhi].
  apply Qle_bool_iff in Hlo, Hhi. eauto.
Qed.

(** What an accepted filter guarantees of every document it selects. *)
Lemma compileFilter_selects `{Platform} (f : Filter) (pred : Scooter -> bool)
  (d : Scooter) :
  compileFilter f = inr pred -> pred d = true ->
  holds (f_isActive f) (Bool.eqb (isActive d)) = true
  /\ holds (f_availability f) (String.eqb (availability d)) = true
  /\ holds (f_type f) (is_str (type d)) = true
  /\ holds (f_condition f) (is_str (condition d)) = true
  /\ (forall lo hi,
        f_presentPrice f = Some (mkPriceBounds (Some (JNum lo)) (Some (JNum hi)))
        -> priceWithin lo hi d).
Proof.
  unfold compileFilter, bind.
  destruct (compileRegex (f_brand f)) as [e|brandRe]; [discriminate|].
  destruct (f_presentPrice f) as [b|].
  - destruct (castBound (gte b)) as [e|lo'] eqn:Hlo; [discriminate|].
    destruct (castBound (lte b)) as [e|hi'] eqn:Hhi; [discriminate|].
    destruct (compileRegex (f_or f)) as [e|searchRe]; [discriminate|].
    intros [= <-] Hp.
    repeat (apply andb_prop in Hp as [Hp ?]).
    repeat split; try assumption.
    intros lo hi [= ->]. simpl in Hlo, Hhi.
    injection Hlo as <-. injection Hhi as <-.
    simpl in *. apply inBounds_within. assumption.
  - destruct (compileRegex (f_or f)) as [e|searchRe]; [discriminate|].
    intros [= <-] Hp.
    repeat (apply andb_prop in Hp as [Hp ?]).
    repeat split; try assumption. intros lo hi [=].
Qed.

Lemma window_incl `{Platform} skip limit l page :
  window skip limit l = inr page -> incl page l.
Proof.
  unfold window. destruct skip as [| |k]; try discriminate.
  destruct limit as [| |n]; try discriminate.
  destruct (k <? 0); [discriminate|].
  intros [= <-] x Hx.
  assert (Hs : In x (skipn (Z.to_nat k) l)).
  { destruct (n =? 0); [exact Hx|].
    rewrite <- (firstn_skipn (Z.to_nat (Z.abs n)) (skipn (Z.to_nat k) l)).
    apply in_or_app. left. exact Hx. }
  rewrite <- (firstn_skipn (Z.to_nat k) l). apply in_or_app. right. exact Hs.
Qed.

(** Every listing of a page is a document of the collection that the
    filter selects. *)
Lemma respondPage_resultSet `{Platform} f q okMessage errMessage s d :
  In d (resultSet (respondPage f q okMessage errMessage s)) ->
  exists pred, compileFilter f = inr pred /\ In d s /\ pred d = true.
Proof.
  unfold respondPage, findDocs, countDocuments, bind.
  destruct (compileFilter f) as [e|pred]; [intros []|].
  destruct (window _ _ _) as [e|page] eqn:Hw; [intros []|].
  unfold resultSet. simpl. intros Hd.
  apply (window_incl _ _ _ _ Hw) in Hd.
  apply (Permutation_in _ (sortDocs_perm _ _)) in Hd.
  apply filter_In in Hd. exists pred. tauto.
Qed.

(** A list handler answers 200 or 500, never 400. *)
Lemma respondPage_status `{Platform} f q okMessage errMessage s :
  status (respondPage f q okMessage errMessage s) = 200
  \/ status (respondPage f q okMessage errMessage s) = 500.
Proof.
  unfold respondPage.
  destruct (_ <- _ ;; _) as [e|[docs count]]; [right | left]; reflexivity.
Qed.

Lemma buildFilter_ignores_type (q : Query) (t : string) :
  includes typeValues t = false ->
  buildFilter (withType (Some t) q) = buildFilter (withType None q).
Proof.
  intros Ht. unfold buildFilter, enumParam.
  cbn -[includes typeValues conditionValues parseInt]. rewrite Ht.
  rewrite andb_false_r. reflexivity.
Qed.

Lemma buildFilter_ignores_condition (q : Query) (c : string) :
  includes conditionValues c = false ->
  buildFilter (withCondition (Some c) q) = buildFilter (withCondition None q).
Proof.
  intros Hc. unfold buildFilter, enumParam.
  cbn -[includes typeValues conditionValues parseInt]. rewrite Hc.
  rewrite andb_false_r. reflexivity.
Qed.

(** C4. Every listing [GET /] returns is a document of the collection with
    [isActive = true] and [availability] equal to the [availability]
    parameter (["available"] when absent).  A [type] outside
    {Petrol, Electric}, or a [condition] outside
    {Excellent, Good, Fair, Poor}, changes neither the filter nor the
    response: the request is answered as the one without the parameter. *)
Theorem C4_list_filter `{Platform} (q : Query) (s : Collection) :
  (forall d, In d (resultSet (getScooters q s)) ->
             In d s /\ isActive d = true
             /\ availability d = orDefault (q_availability q) "available")
  /\ (forall t, t <> "Petrol" -> t <> "Electric" ->
        buildFilter (withType (Some t) q) = buildFilter (withType None q)
        /\ getScooters (withType (Some t) q) s
           = getScooters (withType None q) s)
  /\ (forall c, c <> "Excellent" -> c <> "Good" -> c <> "Fair" ->
                c <> "Poor" ->
        buildFilter (withCondition (Some c) q)
        = buildFilter (withCondition None q)
        /\ getScooters (withCondition (Some c) q) s
           = getScooters (withCondition None q) s).
Proof.
  split; [|split].
  - intros d Hd. unfold getScooters in Hd.
    apply respondPage_resultSet in Hd as (pred & Hf & Hin & Hp).
    destruct (compileFilter_selects _ _ d Hf Hp) as (Ha & Hv & _).
    simpl in Ha, Hv. split; [exact Hin|]. split.
    + destruct (isActive d); [reflexivity | discriminate].
    + apply String.eqb_eq. exact Hv.
  - intros t H1 H2.
    assert (Ht : includes typeValues t = false)
      by (apply includes_typeValues; split; assumption).
    split; [apply buildFilter_ignores_type; exact Ht|].
    unfold getScooters. rewrite (buildFilter_ignores_type q t Ht).
    reflexivity.
  - intros c H1 H2 H3 H4.
    assert (Hc : includes conditionValues c = false)
      by (apply includes_conditionValues; repeat split; assumption).
    split; [apply buildFilter_ignores_condition; exact Hc|].
    unfold getScooters. rewrite (buildFilter_ignores_condition q c Hc).
    reflexivity.
Qed.

Lemma C4_list_filter_witness :
  (forall d, In d (resultSet (@getScooters examplePlatform noQuery showroom)) ->
             isActive d = true /\ availability d = "available")
  /\ @getScooters examplePlatform (withType (Some "Diesel") noQuery) showroom
     = @getScooters examplePlatform noQuery showroom
  /\ @getScooters examplePlatform (withCondition (Some "Mint") noQuery) showroom
     = @getScooters examplePlatform noQuery showroom.
Proof.
  destruct (@C4_list_filter examplePlatform noQuery showroom) as (A & T & C).
  split; [|split].
  - intros d Hd. apply A in Hd. tauto.
  - apply (T "Diesel"); discriminate.
  - apply (C "Mint"); discriminate.
Defined.

Lemma C3_pagination_witness :
  exists page pg,
    @getScooters examplePlatform pageTwoOfTwo showroom
    = mkResponse 200 "Scooters retrieved successfully" (Page page pg)
    /\ Z.of_nat (List.length page) = 2
    /\ totalCount pg = 5
    /\ hasPrevPage pg = true.
Proof.
  destruct (@C3_pagination examplePlatform pageTwoOfTwo showroom 2 2 _
              eq_refl eq_refl eq_refl ltac:(discriminate) ltac:(discriminate))
    as (page & pg & Hr & _ & _ & Hlen & _ & Hcount & t & _ & _ & _ & Hprev & _).
  exists page, pg. repeat split; assumption.
Defined.

(** ** The type endpoint *)

(** C10. [GET /type/:type] answers 400 to every type other than "Petrol" and
    "Electric", a type that [GET /] with the same value as its [type]
    parameter ignores; for "Petrol" and "Electric" it does not answer 400 and
    every listing it returns has that type, [isActive = true] and
    [availability = "available"]. *)
Theorem C10_type_endpoint `{Platform} (t : string) (q : Query) (s : Collection) :
  (t <> "Petrol" -> t <> "Electric" ->
   getScootersByType t q s
   = mkResponse 400 "Invalid scooter type. Must be Petrol or Electric" NoData
   /\ getScooters (withType (Some t) q) s = getScooters (withType None q) s)
  /\ (t = "Petrol" \/ t = "Electric" ->
      status (getScootersByType t q s) <> 400
      /\ forall d, In d (resultSet (getScootersByType t q s)) ->
                   In d s /\ type d = Some t /\ isActive d = true
                   /\ availability d = "available").
Proof.
  split.
  - intros H1 H2.
    assert (Ht : includes typeValues t = false)
      by (apply includes_typeValues; split; assumption).
    split.
    + unfold getScootersByType. rewrite Ht. reflexivity.
    + unfold getScooters. rewrite (buildFilter_ignores_type q t Ht).
      reflexivity.
  - intros Ht.
    assert (Hin : includes typeValues t = true)
      by (destruct Ht as [-> | ->]; reflexivity).
    unfold getScootersByType. rewrite Hin. simpl negb. cbv iota. split.
    + destruct (respondPage_status (findByType t) q
                  (t ++ " scooters retrieved successfully")
                  "Error fetching scooters by type" s) as [-> | ->];
        discriminate.
    + intros d Hd.
      apply respondPage_resultSet in Hd as (pred & Hf & Hs & Hp).
      destruct (compileFilter_selects _ _ d Hf Hp) as (Ha & Hv & Hty & _).
      simpl in Ha, Hv, Hty. split; [exact Hs|]. split; [|split].
      * apply is_str_eq. exact Hty.
      * destruct (isActive d); [reflexivity | discriminate].
      * apply String.eqb_eq. exact Hv.
Qed.

Lemma C10_type_endpoint_witness :
  status (@getScootersByType examplePlatform "Diesel" noQuery showroom) = 400
  /\ forall d,
       In d (resultSet (@getScootersByType examplePlatform "Electric" noQuery
                          showroom)) ->
       type d = Some "Electric" /\ isActive d = true
       /\ availability d = "available".
Proof.
  destruct (@C10_type_endpoint examplePlatform "Diesel" noQuery showroom)
    as (B & _).
  destruct (@C10_type_endpoint examplePlatform "Electric" noQuery showroom)
    as (_ & G).
  split.
  - destruct B as [-> _]; [discriminate | discriminate | reflexivity].
  - intros d Hd. destruct G as [_ G]; [right; reflexivity|].
    apply G in Hd. tauto.
Defined.

Example type_endpoint_electric :
  map _id (resultSet (@getScootersByType examplePlatform "Electric" noQuery
                        showroom)) = [4%N; 5%N].
Proof. reflexivity. Qed.

(** ** The price-range endpoint *)

Lemma parseInt_finite (s : string) : parseInt s <> JInf.
Proof.
  unfold parseInt. destruct (stripSign _) as [sign s1].
  destruct (stripHexPrefix _) as [radix s2].
  destruct (readDigits _ _ _); discriminate.
Qed.




Example price_range_selection :
  map _id (resultSet (@getScootersByPriceRange examplePlatform "55000" "85000"
                        noQuery showroom)) = [2%N; 3%N; 4%N].
Proof. reflexivity. Qed.

(** ** Statistics *)

Lemma Qmin'_spec (a b : Q) :
  (Qmin' a b = a \/ Qmin' a b = b)
  /\ (Qmin' a b <= a)%Q /\ (Qmin' a b <= b)%Q.
Proof.
  unfold Qmin'. destruct (Qle_bool a b) eqn:E.
  - apply Qle_bool_iff in E. repeat split; auto. apply Qle_refl.
  - assert (~ (a <= b)%Q) by (rewrite <- Qle_bool_iff, E; discriminate).
    repeat split; auto; [|apply Qle_refl].
    apply Qlt_le_weak, Qnot_le_lt. assumption.
Qed.

Lemma Qmax'_spec (a b : Q) :
  (Qmax' a b = a \/ Qmax' a b = b)
  /\ (a <= Qmax' a b)%Q /\ (b <= Qmax' a b)%Q.
Proof.
  unfold Qmax'. destruct (Qle_bool a b) eqn:E.
  - apply Qle_bool_iff in E. repeat split; auto. apply Qle_refl.
  - assert (~ (a <= b)%Q) by (rewrite <- Qle_bool_iff, E; discriminate).
    repeat split; auto; [apply Qle_refl|].
    apply Qlt_le_weak, Qnot_le_lt. assumption.
Qed.

Lemma fold_Qmin' (r : list Q) (x : Q) :
  isMinimum (x :: r) (fold_left Qmin' r x).
Proof.
  revert x. induction r as [|y r IH]; intros x; simpl.
  - split; [left; reflexivity|]. intros p [<- | []]. apply Qle_refl.
  - destruct (IH (Qmin' x y)) as [Hin Hle].
    destruct (Qmin'_spec x y) as (Hc & Hx & Hy).
    split.
    + destruct Hin as [Hin | Hin]; [|right; right; exact Hin].
      rewrite <- Hin. destruct Hc as [-> | ->]; [left | right; left];
        reflexivity.
    + intros p [<- | [<- | Hp]].
      * eapply Qle_trans; [apply Hle; left; reflexivity | exact Hx].
      * eapply Qle_trans; [apply Hle; left; reflexivity | exact Hy].
      * apply Hle. right. exact Hp.
Qed.

Lemma fold_Qmax' (r : list Q) (x : Q) :
  isMaximum (x :: r) (fold_left Qmax' r x).
Proof.
  revert x. induction r as [|y r IH]; intros x; simpl.
  - split; [left; reflexivity|]. intros p [<- | []]. apply Qle_refl.
  - destruct (IH (Qmax' x y)) as [Hin Hle].
    destruct (Qmax'_spec x y) as (Hc & Hx & Hy).
    split.
    + destruct Hin as [Hin | Hin]; [|right; right; exact Hin].
      rewrite <- Hin. destruct Hc as [-> | ->]; [left | right; left];
        reflexivity.
    + intros p [<- | [<- | Hp]].
      * eapply Qle_trans; [exact Hx | apply Hle; left; reflexivity].
      * eapply Qle_trans; [exact Hy | apply Hle; left; reflexivity].
      * apply Hle. right. exact Hp.
Qed.

(** The three aggregates of a non-empty list of prices. *)
Lemma aggregates_spec (l : list Q) :
  l <> [] ->
  exists a lo hi,
    avgOf l = Some a /\ minOf l = Some lo /\ maxOf l = Some hi
    /\ isAverage l a /\ isMinimum l lo /\ isMaximum l hi.
Proof.
  destruct l as [|x r]; [congruence|]. intros _.
  eexists _, _, _. split; [reflexivity|]. split; [reflexivity|].
  split; [reflexivity|]. split; [|split].
  - unfold isAverage.
    set (n := inject_Z (Z.of_nat (List.length (x :: r)))).
    assert (Hn : ~ (n == 0)%Q).
    { unfold n. intros E. change 0%Q with (inject_Z 0) in E.
      rewrite inject_Z_injective in E. cbn [List.length] in E. lia. }
    rewrite Qmult_comm. apply Qmult_div_r. exact Hn.
  - apply fold_Qmin'.
  - apply fold_Qmax'.
Qed.



(** The showroom: the sold scooter is a petrol one and counts as such. *)
Example statistics_showroom :
  @getStatistics examplePlatform showroom
  = mkResponse 200 "Scooter statistics retrieved successfully"
      (Stats (mkStatistics 6 5 1 4 2
                (mkPriceStats (Some (350000 # 5)) (Some 50000%Q)
                   (Some 90000%Q)))).
Proof. reflexivity. Qed.

(** When every active document has one of the two engine types, the two
    type counts add up to the total. *)
Lemma petrol_electric_total (s : Collection) :
  (forall d, In d s -> type d = Some "Petrol" \/ type d = Some "Electric") ->
  countWhere (fun d => isActive d && is_str (type d) "Petrol") s
  + countWhere (fun d => isActive d && is_str (type d) "Electric") s
  = countWhere isActive s.
Proof.
  unfold countWhere. induction s as [|d s IH]; intros Hty; [reflexivity|].
  specialize (IH (fun x Hx => Hty x (or_intror Hx))).
  assert (Hpp : is_str (Some "Petrol") "Petrol" = true) by reflexivity.
  assert (Hpe : is_str (Some "Petrol") "Electric" = false) by reflexivity.
  assert (Hep : is_str (Some "Electric") "Petrol" = false) by reflexivity.
  assert (Hee : is_str (Some "Electric") "Electric" = true) by reflexivity.
  cbn [filter]. destruct (Hty d (or_introl eq_refl)) as [-> | ->];
    rewrite ?Hpp, ?Hpe, ?Hep, ?Hee; destruct (isActive d);
    cbn [andb List.length]; rewrite ?Nat2Z.inj_succ; lia.
Qed.

(** ** One document of the collection *)

Lemma findById_In (oid : ObjectId) (s : Collection) (x : Scooter) :
  findById oid s = Some x -> In x s /\ _id x = oid.
Proof.
  unfold findById. intros Hf. apply find_some in Hf as [Hin Hid].
  apply N.eqb_eq in Hid. auto.
Qed.

Lemma In_findById (oid : ObjectId) (s : Collection) (x : Scooter) :
  In x s -> _id x = oid -> exists y, findById oid s = Some y.
Proof.
  unfold findById. intros Hin Hid.
  destruct (find _ s) as [y|] eqn:Hf; [eauto|].
  apply (find_none _ _ Hf) in Hin. rewrite Hid, N.eqb_refl in Hin.
  discriminate.
Qed.

Lemma replaceDoc_In (d : Scooter) (s : Collection) (y : Scooter) :
  In y (replaceDoc d s) -> y = d \/ (In y s /\ _id y <> _id d).
Proof.
  unfold replaceDoc. intros Hin. apply in_map_iff in Hin as (x & Hx & Hin).
  destruct (N.eqb_spec (_id x) (_id d)); [left; auto|].
  right. subst y. auto.
Qed.

Lemma findById_replaceDoc (d : Scooter) (s : Collection) (o : ObjectId) :
  findById o (replaceDoc d s)
  = match findById o s with
    | Some x => Some (if N.eqb (_id x) (_id d) then d else x)
    | None => None
    end.
Proof.
  unfold findById, replaceDoc. induction s as [|a r IH]; [reflexivity|].
  cbn [map find].
  assert (Hid : _id (if N.eqb (_id a) (_id d) then d else a) = _id a).
  { destruct (N.eqb_spec (_id a) (_id d)); congruence. }
  rewrite Hid. destruct (N.eqb (_id a) o); [reflexivity | exact IH].
Qed.

Lemma findById_replaceDoc_same (d : Scooter) (s : Collection) (x : Scooter) :
  findById (_id d) s = Some x -> findById (_id d) (replaceDoc d s) = Some d.
Proof.
  intros Hf. rewrite findById_replaceDoc, Hf.
  apply findById_In in Hf as [_ ->]. rewrite N.eqb_refl. reflexivity.
Qed.

Lemma findById_replaceDoc_other (d : Scooter) (s : Collection) (o : ObjectId) :
  o <> _id d -> findById o (replaceDoc d s) = findById o s.
Proof.
  intros Ho. rewrite findById_replaceDoc.
  destruct (findById o s) as [x|] eqn:Hf; [|reflexivity].
  apply findById_In in Hf as [_ Hid].
  destruct (N.eqb_spec (_id x) (_id d)); [congruence | reflexivity].
Qed.

Lemma replaceDoc_idempotent (d : Scooter) (s : Collection) :
  replaceDoc d (replaceDoc d s) = replaceDoc d s.
Proof.
  unfold replaceDoc. rewrite map_map. apply map_ext. intros a.
  destruct (N.eqb_spec (_id a) (_id d)) as [E|E].
  - rewrite N.eqb_refl. reflexivity.
  - apply N.eqb_neq in E. rewrite E. reflexivity.
Qed.

(** Replacing an inactive document by an inactive one changes no selection
    of a filter that asks for [isActive = true]. *)
Lemma filter_replaceDoc_inactive (pred : Scooter -> bool) (d : Scooter)
  (s : Collection) :
  (forall y, isActive y = false -> pred y = false) ->
  isActive d = false ->
  (forall y, In y s -> _id y = _id d -> isActive y = false) ->
  filter pred (replaceDoc d s) = filter pred s.
Proof.
  intros Hpred Hd. unfold replaceDoc.
  induction s as [|a r IH]; intros Hs; [reflexivity|].
  cbn [map filter].
  rewrite IH by (intros y Hy; apply Hs; right; exact Hy).
  destruct (N.eqb_spec (_id a) (_id d)) as [E|E]; [|reflexivity].
  rewrite (Hpred d Hd), (Hpred a (Hs a (or_introl eq_refl) E)). reflexivity.
Qed.

Lemma compileFilter_active `{Platform} (f : Filter) (pred : Scooter -> bool) :
  f_isActive f = Some true -> compileFilter f = inr pred ->
  forall y, isActive y = false -> pred y = false.
Proof.
  intros Hact Hf y Hy. destruct (pred y) eqn:Hp; [|reflexivity].
  destruct (compileFilter_selects f pred y Hf Hp) as (Ha & _).
  rewrite Hact, Hy in Ha. discriminate.
Qed.

(** A list handler sees the collection through the selection only. *)
Lemma respondPage_selection `{Platform} f q okMessage errMessage s s' :
  (forall pred, compileFilter f = inr pred -> filter pred s = filter pred s') ->
  respondPage f q okMessage errMessage s
  = respondPage f q okMessage errMessage s'.
Proof.
  intros Hsel. unfold respondPage, findDocs, countDocuments, bind.
  destruct (compileFilter f) as [e|pred]; [reflexivity|].
  rewrite (Hsel pred eq_refl). reflexivity.
Qed.

(** ** Well-formed documents stay well-formed *)

Ltac split_andb :=
  repeat match goal with
         | H : _ && _ = true |- _ => apply andb_prop in H as [? ?]
         end;
  repeat (apply andb_true_intro; split).

Lemma errorsAfterCapacity_nil `{Platform} (d : Scooter) :
  errorsAfterCapacity d = []
  <-> maxLength 1000 (description d)
      && (requiredString (seller_email d)
          && matchRegex emailPattern (seller_email d))
      && matchRegex emailPattern (contactInfo_email d)
      && enum availabilityValues (Some (availability d))
      && (0 <=? viewCount d) = true.
Proof.
  unfold errorsAfterCapacity.
  destruct (maxLength 1000 (description d)),
    (requiredString (seller_email d)),
    (matchRegex emailPattern (seller_email d)),
    (matchRegex emailPattern (contactInfo_email d)),
    (enum availabilityValues (Some (availability d))),
    (0 <=? viewCount d);
    cbn [firstFailure app andb]; split; intros E; try discriminate E;
    reflexivity.
Qed.

Lemma otherPathsValid_iff `{Platform} (d : Scooter) :
  otherPathsValid d = true
  <-> errorsBeforeCapacity d = [] /\ errorsAfterCapacity d = [].
Proof.
  unfold otherPathsValid.
  destruct (errorsBeforeCapacity d), (errorsAfterCapacity d); split;
    try discriminate; auto; intros [? ?]; discriminate.
Qed.

(** A change that leaves the paths before [engineCapacity], the type and the
    capacities alone and keeps the later paths valid keeps the document
    well formed. *)
Lemma wellFormed_preserved `{Platform} (d d' : Scooter) :
  errorsBeforeCapacity d' = errorsBeforeCapacity d ->
  capacityMissing d' = capacityMissing d ->
  (errorsAfterCapacity d = [] -> errorsAfterCapacity d' = []) ->
  wellFormed d = true -> wellFormed d' = true.
Proof.
  unfold wellFormed. intros Hb Hc Ha Hw.
  apply andb_prop in Hw as [Ho Hm].
  apply otherPathsValid_iff in Ho as [Ho1 Ho2].
  apply andb_true_intro. split.
  - apply otherPathsValid_iff. rewrite Hb. auto.
  - rewrite Hc. exact Hm.
Qed.

Lemma wellFormed_stamp `{Platform} now isNew modified d :
  wellFormed (stamp now isNew modified d) = wellFormed d.
Proof. unfold stamp. destruct isNew, modified; reflexivity. Qed.

Lemma wellFormed_backfill `{Platform} d :
  wellFormed d = true -> wellFormed (backfillContactEmail d) = true.
Proof.
  unfold backfillContactEmail.
  destruct (negb (truthy (contactInfo_email d)) && truthy (seller_email d));
    [|auto].
  apply wellFormed_preserved; try reflexivity.
  rewrite !errorsAfterCapacity_nil.
  cbn [description seller_email contactInfo_email availability viewCount
         set_contactInfo_email].
  intros E. split_andb; assumption.
Qed.

Lemma wellFormed_viewCount `{Platform} d :
  wellFormed d = true -> wellFormed (set_viewCount (viewCount d + 1) d) = true.
Proof.
  apply wellFormed_preserved; try reflexivity.
  rewrite !errorsAfterCapacity_nil.
  cbn [description seller_email contactInfo_email availability viewCount
         set_viewCount].
  intros E. split_andb; try assumption.
  match goal with
  | V : (0 <=? viewCount d) = true |- _ => apply Z.leb_le in V
  end.
  apply Z.leb_le. lia.
Qed.

Lemma wellFormed_sold `{Platform} d :
  wellFormed d = true -> wellFormed (set_availability "sold" d) = true.
Proof.
  apply wellFormed_preserved; try reflexivity.
  rewrite !errorsAfterCapacity_nil.
  cbn [description seller_email contactInfo_email availability viewCount
         set_availability].
  intros E. split_andb; try assumption; reflexivity.
Qed.

Lemma wellFormed_afterFetch `{Platform} now x :
  wellFormed x = true -> wellFormed (afterFetch now x) = true.
Proof.
  intros Hw. unfold afterFetch. apply wellFormed_backfill.
  rewrite wellFormed_stamp. apply wellFormed_viewCount. exact Hw.
Qed.

Lemma wellFormed_afterSold `{Platform} now x :
  wellFormed x = true -> wellFormed (afterSold now x) = true.
Proof.
  intros Hw. unfold afterSold. apply wellFormed_backfill.
  rewrite wellFormed_stamp. apply wellFormed_sold. exact Hw.
Qed.

Lemma wellFormed_afterDelete `{Platform} now x :
  wellFormed (afterDelete now x) = wellFormed x.
Proof. reflexivity. Qed.

(** ** What [save] and the instance methods store *)

Lemma save_inv `{Platform} now isNew modified d s s' d' :
  save now isNew modified d s = inr (s', d') ->
  d' = backfillContactEmail (stamp now isNew modified d)
  /\ s' = if isNew then (s ++ [d'])%list else replaceDoc d' s.
Proof.
  unfold save. destruct (validate _); [|discriminate].
  rewrite preSave_capacity.
  destruct (_ && _); [discriminate|].
  destruct (_ && _); [discriminate|].
  unfold bind. intros [= <- <-]. auto.
Qed.

Lemma save_wellFormed `{Platform} now isNew modified d s :
  wellFormed d = true ->
  let d' := backfillContactEmail (stamp now isNew modified d) in
  save now isNew modified d s
  = inr (if isNew then (s ++ [d'])%list else replaceDoc d' s, d').
Proof.
  unfold wellFormed. intros Hw. apply andb_prop in Hw as [Ho Hc].
  apply negb_true_iff in Hc. apply save_ok_wellFormed; assumption.
Qed.

Lemma backfill_fields (d : Scooter) :
  _id (backfillContactEmail d) = _id d
  /\ isActive (backfillContactEmail d) = isActive d
  /\ availability (backfillContactEmail d) = availability d
  /\ viewCount (backfillContactEmail d) = viewCount d
  /\ updatedAt (backfillContactEmail d) = updatedAt d.
Proof.
  unfold backfillContactEmail. destruct (_ && _); repeat split; reflexivity.
Qed.

Lemma afterFetch_fields (now : Z) (x : Scooter) :
  _id (afterFetch now x) = _id x
  /\ isActive (afterFetch now x) = isActive x
  /\ availability (afterFetch now x) = availability x
  /\ viewCount (afterFetch now x) = viewCount x + 1
  /\ updatedAt (afterFetch now x) = now.
Proof.
  unfold afterFetch.
  destruct (backfill_fields
              (stamp now false true (set_viewCount (viewCount x + 1) x)))
    as (-> & -> & -> & -> & ->).
  repeat split; reflexivity.
Qed.

Lemma afterSold_fields (now : Z) (x : Scooter) :
  _id (afterSold now x) = _id x
  /\ isActive (afterSold now x) = isActive x
  /\ availability (afterSold now x) = "sold"
  /\ viewCount (afterSold now x) = viewCount x.
Proof.
  unfold afterSold.
  destruct (backfill_fields
              (stamp now false (negb (String.eqb (availability x) "sold"))
                 (set_availability "sold" x)))
    as (-> & -> & -> & -> & _).
  unfold stamp. destruct (negb _); repeat split; reflexivity.
Qed.

(** ** The handlers that change a listing *)

Lemma getScooterById_found `{Platform} now id s oid x :
  castObjectId id = Some oid -> findById oid s = Some x ->
  wellFormed x = true ->
  getScooterById now id s
  = (replaceDoc (afterFetch now x) s,
     mkResponse 200 "Scooter retrieved successfully" (Doc (afterFetch now x))).
Proof.
  intros Hc Hf Hw. unfold getScooterById, incrementViewCount.
  rewrite Hc, Hf.
  rewrite (save_wellFormed now false true _ s (wellFormed_viewCount x Hw)).
  reflexivity.
Qed.

Lemma deleteScooter_found `{Platform} now id s oid x :
  castObjectId id = Some oid -> findById oid s = Some x ->
  deleteScooter now id s
  = (replaceDoc (afterDelete now x) s,
     mkResponse 200 "Scooter listing deleted successfully"
       (Doc (afterDelete now x))).
Proof.
  intros Hc Hf. unfold deleteScooter. rewrite Hc, Hf. reflexivity.
Qed.

(** Every request changes the collection by one of the five steps. *)
Lemma handle_step `{Platform} now r s : Step s (fst (handle now r s)).
Proof.
  destruct r as [q|id|b|id|id|t q|a b q|]; cbn [handle fst];
    try apply StepNone.
  - (* GET /:id *)
    unfold getScooterById.
    destruct (castObjectId id) as [oid|]; [|apply StepNone].
    destruct (findById oid s) as [x|] eqn:Hf; [|apply StepNone].
    destruct (incrementViewCount now x s) as [e|[s' x']] eqn:Hi.
    + destruct e; apply StepNone.
    + apply save_inv in Hi as [-> ->]. apply findById_In in Hf as Hx.
      destruct Hx as [_ Hid]. rewrite <- Hid in Hf.
      exact (StepFetch s now x Hf).
  - (* POST / *)
    unfold createScooter.
    destruct (save now true true (newScooter b s) s) as [e|[s' d']] eqn:Hs.
    + destruct e; apply StepNone.
    + apply save_inv in Hs as [-> ->]. apply StepInsert.
      destruct (backfill_fields (stamp now true true (newScooter b s)))
        as [-> _].
      reflexivity.
  - (* DELETE /:id *)
    unfold deleteScooter.
    destruct (castObjectId id) as [oid|]; [|apply StepNone].
    destruct (findById oid s) as [x|] eqn:Hf; [|apply StepNone].
    apply findById_In in Hf as Hx. destruct Hx as [_ Hid].
    rewrite <- Hid in Hf. exact (StepDelete s now x Hf).
  - (* PATCH /:id/sold *)
    unfold markScooterSold.
    destruct (castObjectId id) as [oid|]; [|apply StepNone].
    destruct (findById oid s) as [x|] eqn:Hf; [|apply StepNone].
    destruct (markAsSold now x s) as [e|[s' x']] eqn:Hi.
    + destruct e; apply StepNone.
    + apply save_inv in Hi as [-> ->]. apply findById_In in Hf as Hx.
      destruct Hx as [_ Hid]. rewrite <- Hid in Hf.
      exact (StepSold s now x Hf).
Qed.

Lemma findById_app (oid : ObjectId) (s l : Collection) (y : Scooter) :
  findById oid s = Some y -> findById oid (s ++ l)%list = Some y.
Proof.
  unfold findById. induction s as [|a r IH]; [discriminate|].
  cbn [app find]. destruct (N.eqb (_id a) oid); auto.
Qed.

Lemma holdsAt_replaceDoc (P : Scooter -> Prop) oid s x x' :
  findById (_id x) s = Some x -> _id x' = _id x -> (P x -> P x') ->
  holdsAt P oid s -> holdsAt P oid (replaceDoc x' s).
Proof.
  intros Hf Hid HP [[y Hy] Hall]. split.
  - rewrite findById_replaceDoc, Hy. eauto.
  - intros z Hz Hzid. apply replaceDoc_In in Hz as [-> | [Hz _]].
    + apply HP. apply findById_In in Hf as [Hin _].
      apply Hall; [exact Hin | congruence].
    + apply Hall; assumption.
Qed.

(** A property of a listing that the three mutations keep is kept by every
    request. *)
Lemma holdsAt_step `{Platform} (P : Scooter -> Prop) oid s s' :
  (forall now x, P x -> P (afterFetch now x)) ->
  (forall now x, P x -> P (afterSold now x)) ->
  (forall now x, P x -> P (afterDelete now x)) ->
  Step s s' -> holdsAt P oid s -> holdsAt P oid s'.
Proof.
  intros Pf Ps Pd Hstep Hinv.
  destruct Hstep as [|d Hid|now x Hf|now x Hf|now x Hf].
  - exact Hinv.
  - destruct Hinv as [[y Hy] Hall]. split.
    + exists y. apply findById_app. exact Hy.
    + intros z Hz Hzid. apply in_app_or in Hz as [Hz | [<- | []]].
      * apply Hall; assumption.
      * exfalso. apply (newObjectId_fresh s). rewrite <- Hid, Hzid.
        apply findById_In in Hy as [Hin <-]. apply in_map. exact Hin.
  - apply (holdsAt_replaceDoc P oid s x); auto.
    apply (afterFetch_fields now x).
  - apply (holdsAt_replaceDoc P oid s x); auto.
    apply (afterSold_fields now x).
  - apply (holdsAt_replaceDoc P oid s x); auto.
Qed.

Lemma holdsAt_run `{Platform} (P : Scooter -> Prop) oid trace s :
  (forall now x, P x -> P (afterFetch now x)) ->
  (forall now x, P x -> P (afterSold now x)) ->
  (forall now x, P x -> P (afterDelete now x)) ->
  holdsAt P oid s -> holdsAt P oid (run trace s).
Proof.
  intros Pf Ps Pd. revert s.
  induction trace as [|[now r] rest IH]; intros s Hinv; [exact Hinv|].
  cbn [run]. apply IH.
  apply (holdsAt_step P oid s _ Pf Ps Pd (handle_step now r s) Hinv).
Qed.

(** Right after its soft delete the listing is there, and inactive. *)
Lemma holdsAt_deleted (P : Scooter -> Prop) oid s x now :
  findById oid s = Some x -> P (afterDelete now x) ->
  holdsAt P oid (replaceDoc (afterDelete now x) s).
Proof.
  intros Hf HP. apply findById_In in Hf as Hx. destruct Hx as [_ Hid].
  split.
  - rewrite findById_replaceDoc, Hf. eauto.
  - intros z Hz Hzid. apply replaceDoc_In in Hz as [-> | [_ Hne]];
      [exact HP|].
    exfalso. apply Hne. cbn [afterDelete _id set_updatedAt set_isActive].
    congruence.
Qed.

(** No list handler returns a listing that is inactive in the collection. *)
Lemma getScooters_excludes `{Platform} q s oid d :
  holdsAt (fun y => isActive y = false) oid s ->
  In d (resultSet (getScooters q s)) -> _id d <> oid.
Proof.
  intros [_ Hall] Hd Hid. unfold getScooters in Hd.
  apply respondPage_resultSet in Hd as (pred & Hf & Hin & Hp).
  assert (Hact : f_isActive (buildFilter q) = Some true) by reflexivity.
  rewrite (compileFilter_active _ _ Hact Hf d (Hall d Hin Hid)) in Hp.
  discriminate.
Qed.

(** ** Soft delete *)

(** C5. After [DELETE /:id] of an existing listing X, whatever modelled
    requests follow, no answer of [GET /] contains X, under the default
    filters or any others; and [GET /:id] for X (a listing that satisfies
    the invariants of the data model) still answers 200 with the record,
    which is still inactive. *)
Theorem C5_soft_delete `{Platform} (now : Z) (id : string) (s : Collection)
  (oid : ObjectId) (x : Scooter) :
  castObjectId id = Some oid -> findById oid s = Some x ->
  let s1 := fst (deleteScooter now id s) in
  (findById oid s1 = Some (afterDelete now x)
   /\ isActive (afterDelete now x) = false)
  /\ (forall trace q d,
        In d (resultSet (getScooters q (run trace s1))) -> _id d <> oid)
  /\ (wellFormed x = true ->
      forall trace now',
      exists x',
        findById oid (run trace s1) = Some x'
        /\ isActive x' = false
        /\ getScooterById now' id (run trace s1)
           = (replaceDoc (afterFetch now' x') (run trace s1),
              mkResponse 200 "Scooter retrieved successfully"
                (Doc (afterFetch now' x')))
        /\ _id (afterFetch now' x') = oid
        /\ isActive (afterFetch now' x') = false).
Proof.
  intros Hc Hf s1. unfold s1.
  rewrite (deleteScooter_found now id s oid x Hc Hf). cbn [fst].
  apply findById_In in Hf as Hx. destruct Hx as [Hin Hid].
  split; [|split].
  - split; [|reflexivity].
    rewrite findById_replaceDoc, Hf.
    cbn [afterDelete _id set_updatedAt set_isActive].
    rewrite N.eqb_refl. reflexivity.
  - intros trace q d Hd.
    refine (getScooters_excludes q _ oid d _ Hd).
    apply holdsAt_run.
    + intros t y Hy. destruct (afterFetch_fields t y) as (_ & -> & _).
      exact Hy.
    + intros t y Hy. destruct (afterSold_fields t y) as (_ & -> & _).
      exact Hy.
    + reflexivity.
    + apply holdsAt_deleted; [exact Hf | reflexivity].
  - intros Hw trace now'.
    assert (Hinv : holdsAt (fun y => isActive y = false /\ wellFormed y = true)
                     oid (run trace (replaceDoc (afterDelete now x) s))).
    { apply holdsAt_run.
      - intros t y [Hy Hwy]. destruct (afterFetch_fields t y) as (_ & -> & _).
        split; [exact Hy | apply wellFormed_afterFetch; exact Hwy].
      - intros t y [Hy Hwy]. destruct (afterSold_fields t y) as (_ & -> & _).
        split; [exact Hy | apply wellFormed_afterSold; exact Hwy].
      - intros t y [Hy Hwy]. split; [reflexivity|].
        rewrite wellFormed_afterDelete. exact Hwy.
      - apply holdsAt_deleted; [exact Hf|].
        split; [reflexivity | rewrite wellFormed_afterDelete; exact Hw]. }
    destruct Hinv as [[x' Hx'] Hall].
    apply findById_In in Hx' as Hx''. destruct Hx'' as [Hin' Hid'].
    destruct (Hall x' Hin' Hid') as [Hact Hwf].
    exists x'. split; [exact Hx'|]. split; [exact Hact|].
    split; [apply (getScooterById_found now' id _ oid x' Hc Hx' Hwf)|].
    destruct (afterFetch_fields now' x') as (-> & -> & _). auto.
Qed.

Lemma C5_soft_delete_witness :
  let s1 := fst (@deleteScooter examplePlatform 7 idOne showroom) in
  let later :=
    @run examplePlatform
      [(8, GetScooterById idOne); (9, CreateScooter petrolBody);
       (10, MarkScooterSold idOne)] s1 in
  (forall d, In d (resultSet (@getScooters examplePlatform noQuery later)) ->
             _id d <> 1%N)
  /\ exists x',
       snd (@getScooterById examplePlatform 11 idOne later)
       = mkResponse 200 "Scooter retrieved successfully" (Doc x')
       /\ _id x' = 1%N /\ isActive x' = false.
Proof.
  intros s1 later.
  destruct (@C5_soft_delete examplePlatform 7 idOne showroom 1%N
              (listing 1 "Petrol" 50000 "available" true) eq_refl eq_refl)
    as (_ & Hlist & Hget).
  split.
  - intros d Hd. exact (Hlist _ noQuery d Hd).
  - destruct (Hget eq_refl
                [(8, GetScooterById idOne); (9, CreateScooter petrolBody);
                 (10, MarkScooterSold idOne)] 11)
      as (x' & _ & _ & Hr & Hid & Hact).
    exists (afterFetch 11 x'). fold s1 in Hr. fold later in Hr.
    rewrite Hr. auto.
Defined.

Example soft_delete_default_list :
  map _id (resultSet (@getScooters examplePlatform noQuery
                        (fst (@deleteScooter examplePlatform 7 idOne showroom))))
  = [2%N; 3%N; 4%N; 5%N].
Proof. reflexivity. Qed.

(** ** The view count *)

Lemma fetchTimes_viewCount `{Platform} (id : string) (oid : ObjectId)
  (times : list Z) :
  castObjectId id = Some oid ->
  forall s x,
    findById oid s = Some x -> wellFormed x = true ->
    exists xn,
      findById oid (fetchTimes times id s) = Some xn
      /\ viewCount xn = viewCount x + Z.of_nat (List.length times)
      /\ wellFormed xn = true.
Proof.
  intros Hc. induction times as [|now rest IH]; intros s x Hf Hw.
  - exists x. cbn [fetchTimes List.length]. rewrite Z.add_0_r. auto.
  - cbn [fetchTimes]. rewrite (getScooterById_found now id s oid x Hc Hf Hw).
    cbn [fst].
    destruct (afterFetch_fields now x) as (Hid & _ & _ & Hv & _).
    apply findById_In in Hf as Hx. destruct Hx as [_ Hxid].
    assert (Hf' : findById oid (replaceDoc (afterFetch now x) s)
                  = Some (afterFetch now x)).
    { rewrite <- Hxid, <- Hid. apply (findById_replaceDoc_same _ s x).
      rewrite Hid, Hxid. exact Hf. }
    destruct (IH _ _ Hf' (wellFormed_afterFetch now x Hw))
      as (xn & Hn & Hvn & Hwn).
    exists xn. split; [exact Hn|]. split; [|exact Hwn].
    rewrite Hvn, Hv. cbn [List.length]. lia.
Qed.

(** C7. For an existing listing (one that satisfies the invariants of the
    data model), [GET /:id] answers 200 with the record as stored after the
    call, whose [viewCount] is the stored one plus exactly 1; no other
    listing changes; and after [n] such calls in sequence the stored
    [viewCount] is the initial one plus [n]. *)
Theorem C7_view_count `{Platform} (id : string) (s : Collection)
  (oid : ObjectId) (x : Scooter) :
  castObjectId id = Some oid -> findById oid s = Some x ->
  wellFormed x = true ->
  (forall now,
   exists x',
     getScooterById now id s
     = (replaceDoc x' s,
        mkResponse 200 "Scooter retrieved successfully" (Doc x'))
     /\ findById oid (replaceDoc x' s) = Some x'
     /\ viewCount x' = viewCount x + 1
     /\ (forall o, o <> oid -> findById o (replaceDoc x' s) = findById o s))
  /\ (forall times,
      exists xn,
        findById oid (fetchTimes times id s) = Some xn
        /\ viewCount xn = viewCount x + Z.of_nat (List.length times)).
Proof.
  intros Hc Hf Hw. split.
  - intros now. exists (afterFetch now x).
    destruct (afterFetch_fields now x) as (Hid & _ & _ & Hv & _).
    apply findById_In in Hf as Hx. destruct Hx as [_ Hxid].
    split; [apply (getScooterById_found now id s oid x Hc Hf Hw)|].
    split; [|split; [exact Hv|]].
    + rewrite <- Hxid, <- Hid. apply (findById_replaceDoc_same _ s x).
      rewrite Hid, Hxid. exact Hf.
    + intros o Ho. apply findById_replaceDoc_other. congruence.
  - intros times.
    destruct (fetchTimes_viewCount id oid times Hc s x Hf Hw)
      as (xn & Hn & Hv & _).
    eauto.
Qed.

Lemma C7_view_count_witness :
  (exists x',
     snd (@getScooterById examplePlatform 7 idOne showroom)
     = mkResponse 200 "Scooter retrieved successfully" (Doc x')
     /\ viewCount x' = 1)
  /\ exists xn,
       findById 1%N (@fetchTimes examplePlatform [7; 8; 9] idOne showroom)
       = Some xn
       /\ viewCount xn = 3.
Proof.
  destruct (@C7_view_count examplePlatform idOne showroom 1%N
              (listing 1 "Petrol" 50000 "available" true)
              eq_refl eq_refl eq_refl) as (Hone & Hmany).
  split.
  - destruct (Hone 7) as (x' & Hr & _ & Hv & _).
    exists x'. rewrite Hr. auto.
  - destruct (Hmany [7; 8; 9]) as (xn & Hn & Hv). eauto.
Defined.

(** ** Deleting twice *)

Lemma countDocuments_selection `{Platform} f s s' :
  (forall pred, compileFilter f = inr pred -> filter pred s = filter pred s') ->
  countDocuments f s = countDocuments f s'.
Proof.
  intros Hsel. unfold countDocuments, bind.
  destruct (compileFilter f) as [e|pred]; [reflexivity|].
  rewrite (Hsel pred eq_refl). reflexivity.
Qed.

Lemma aggregatePrices_selection `{Platform} f s s' :
  (forall pred, compileFilter f = inr pred -> filter pred s = filter pred s') ->
  aggregatePrices f s = aggregatePrices f s'.
Proof.
  intros Hsel. unfold aggregatePrices, bind.
  destruct (compileFilter f) as [e|pred]; [reflexivity|].
  rewrite (Hsel pred eq_refl). reflexivity.
Qed.

(** C9. For an id that resolves to an existing listing, the first
    [DELETE /:id] and a second one both answer 200 with the record; after
    each the stored record has [isActive = false]; the second leaves every
    path of the record but [updatedAt] (which takes the time of the call)
    and every other listing as the first left them, so every answer of
    [GET /] and of the statistics is the same after the second as after the
    first; at the same clock value the collection itself is the same. *)
Theorem C9_delete_idempotent `{Platform} (now1 now2 : Z) (id : string)
  (s : Collection) (oid : ObjectId) (x : Scooter) :
  castObjectId id = Some oid -> findById oid s = Some x ->
  let s1 := fst (deleteScooter now1 id s) in
  let s2 := fst (deleteScooter now2 id s1) in
  let x1 := afterDelete now1 x in
  let x2 := afterDelete now2 x1 in
  deleteScooter now1 id s
  = (s1, mkResponse 200 "Scooter listing deleted successfully" (Doc x1))
  /\ deleteScooter now2 id s1
     = (s2, mkResponse 200 "Scooter listing deleted successfully" (Doc x2))
  /\ findById oid s1 = Some x1 /\ findById oid s2 = Some x2
  /\ isActive x1 = false /\ isActive x2 = false
  /\ sameButUpdatedAt x2 x1 /\ updatedAt x2 = now2
  /\ (forall o, o <> oid -> findById o s2 = findById o s1)
  /\ (forall q, getScooters q s2 = getScooters q s1)
  /\ getStatistics s2 = getStatistics s1
  /\ (now2 = now1 -> s2 = s1).
Proof.
  intros Hc Hf s1 s2 x1 x2.
  assert (Hd1 := deleteScooter_found now1 id s oid x Hc Hf).
  apply findById_In in Hf as Hx. destruct Hx as [_ Hid].
  assert (Hf1 : findById oid s1 = Some x1).
  { unfold s1. rewrite Hd1. cbn [fst].
    rewrite findById_replaceDoc, Hf.
    cbn [afterDelete _id set_updatedAt set_isActive].
    rewrite N.eqb_refl. reflexivity. }
  assert (Hd2 := deleteScooter_found now2 id s1 oid x1 Hc Hf1).
  assert (Hs1 : s1 = replaceDoc x1 s) by (unfold s1; rewrite Hd1; reflexivity).
  assert (Hs2 : s2 = replaceDoc x2 s1) by (unfold s2; rewrite Hd2; reflexivity).
  assert (Hinv : holdsAt (fun y => isActive y = false) oid s1).
  { rewrite Hs1. apply holdsAt_deleted; [exact Hf | reflexivity]. }
  assert (Hsel : forall f pred,
             f_isActive f = Some true -> compileFilter f = inr pred ->
             filter pred s2 = filter pred s1).
  { intros f pred Hact Hcf. rewrite Hs2.
    apply filter_replaceDoc_inactive.
    - apply (compileFilter_active f pred Hact Hcf).
    - reflexivity.
    - intros y Hy Hyid. apply Hinv; [exact Hy|].
      rewrite Hyid. unfold x2, x1.
      cbn [afterDelete _id set_updatedAt set_isActive]. exact Hid. }
  split; [rewrite Hd1; unfold s1; rewrite Hd1; reflexivity|].
  split; [rewrite Hd2; unfold s2; rewrite Hd2; reflexivity|].
  split; [exact Hf1|].
  split.
  { rewrite Hs2, findById_replaceDoc, Hf1.
    unfold x2, x1. cbn [afterDelete _id set_updatedAt set_isActive].
    rewrite N.eqb_refl. reflexivity. }
  split; [reflexivity|]. split; [reflexivity|].
  split; [reflexivity|]. split; [reflexivity|].
  split.
  { intros o Ho. rewrite Hs2. apply findById_replaceDoc_other.
    unfold x2, x1. cbn [afterDelete _id set_updatedAt set_isActive].
    congruence. }
  split.
  { intros q. unfold getScooters. apply respondPage_selection.
    intros pred. apply Hsel. reflexivity. }
  split.
  { unfold getStatistics.
    rewrite !(countDocuments_selection _ s2 s1)
      by (intros pred; apply Hsel; reflexivity).
    rewrite (aggregatePrices_selection _ s2 s1)
      by (intros pred; apply Hsel; reflexivity).
    reflexivity. }
  intros ->. rewrite Hs2, Hs1.
  change x2 with x1. apply replaceDoc_idempotent.
Qed.

Lemma C9_delete_idempotent_witness :
  let s1 := fst (@deleteScooter examplePlatform 7 idOne showroom) in
  let s2 := fst (@deleteScooter examplePlatform 8 idOne s1) in
  status (snd (@deleteScooter examplePlatform 7 idOne showroom)) = 200
  /\ status (snd (@deleteScooter examplePlatform 8 idOne s1)) = 200
  /\ (exists x2, findById 1%N s2 = Some x2 /\ isActive x2 = false)
  /\ @getScooters examplePlatform noQuery s2 = @getScooters examplePlatform noQuery s1.
Proof.
  intros s1 s2.
  destruct (@C9_delete_idempotent examplePlatform 7 8 idOne showroom 1%N
              (listing 1 "Petrol" 50000 "available" true) eq_refl eq_refl)
    as (H1 & H2 & _ & Hf2 & _ & Ha2 & _ & _ & _ & Hq & _).
  split; [rewrite H1; reflexivity|].
  split; [fold s1; fold s1 in H2; rewrite H2; reflexivity|].
  split; [eexists; split; [exact Hf2 | exact Ha2]|].
  exact (Hq noQuery).
Defined.

(** * Further properties of the model and of the handlers *)

(** ** What [save] accepts *)

Lemma firstFailure_nil (checks : list (bool * string)) :
  firstFailure checks = [] <-> forallb fst checks = true.
Proof.
  induction checks as [|[ok msg] rest IH]; simpl; [tauto|].
  destruct ok; simpl; [exact IH | split; discriminate].
Qed.

Lemma truthy_filled (v : option string) : truthy v = true <-> filled v.
Proof.
  unfold filled. destruct v as [[|c r]|]; simpl; split; try discriminate.
  - intros (s & [= <-] & Hs). congruence.
  - intros _. eexists. split; [reflexivity | discriminate].
  - reflexivity.
  - intros (s & Hs & _). discriminate.
Qed.

Lemma includes_In (values : list string) (s : string) :
  includes values s = true <-> In s values.
Proof.
  unfold includes. rewrite existsb_exists. split.
  - intros (x & Hx & E). apply String.eqb_eq in E. subst. exact Hx.
  - intros Hs. exists s. split; [exact Hs | apply String.eqb_refl].
Qed.

Lemma required_maxLength (k : nat) (v : option string) :
  requiredString v && maxLength (Z.of_nat k) v = true <-> nonEmptyUpTo k v.
Proof.
  unfold requiredString, maxLength, nonEmptyUpTo.
  rewrite andb_true_iff, truthy_filled. unfold filled. split.
  - intros [(s & -> & Hs) Hl]. apply Z.leb_le in Hl.
    exists s. repeat split; [exact Hs | lia].
  - intros (s & -> & Hs & Hl). split; [eauto|]. apply Z.leb_le. lia.
Qed.

Lemma required_enum (values : list string) (v : option string) :
  (forall s, In s values -> s <> "") ->
  requiredString v && enum values v = true <-> oneOf values v.
Proof.
  intros Hne. unfold requiredString, enum, oneOf.
  rewrite andb_true_iff, truthy_filled. unfold filled. split.
  - intros [(s & -> & Hs) Hi]. apply includes_In in Hi. eauto.
  - intros (s & -> & Hi). split; [eauto | apply includes_In; exact Hi].
Qed.

Lemma required_min (v : option Q) :
  requiredNumber v && minNumber 0 v = true <-> notNegative v.
Proof.
  unfold requiredNumber, minNumber, notNegative. destruct v as [p|]; simpl.
  - rewrite Qle_bool_iff. split; [eauto | intros (q & [= <-] & Hq); exact Hq].
  - split; [discriminate | intros (q & Hq & _); discriminate].
Qed.

Lemma app_nil_iff {A : Type} (l l' : list A) :
  (l ++ l')%list = [] <-> l = [] /\ l' = [].
Proof.
  split; [apply app_eq_nil | intros [-> ->]; reflexivity].
Qed.

Lemma errorsBeforeCapacity_nil (d : Scooter) :
  errorsBeforeCapacity d = []
  <-> nonEmptyUpTo 100 (name d) /\ nonEmptyUpTo 50 (brand d)
      /\ oneOf conditionValues (condition d)
      /\ notNegative (presentPrice d) /\ notNegative (pastPrice d)
      /\ oneOf typeValues (type d).
Proof.
  unfold errorsBeforeCapacity.
  rewrite !app_nil_iff, !firstFailure_nil.
  cbn [forallb fst]. rewrite !andb_true_r.
  change 100 with (Z.of_nat 100). change 50 with (Z.of_nat 50).
  rewrite !required_maxLength, !required_min.
  rewrite (required_enum conditionValues)
    by (intros s [<- | [<- | [<- | [<- | []]]]]; discriminate).
  rewrite (required_enum typeValues)
    by (intros s [<- | [<- | []]]; discriminate).
  tauto.
Qed.

Lemma maxLength_spec (k : nat) (v : option string) :
  maxLength (Z.of_nat k) v = true
  <-> forall s, v = Some s -> (String.length s <= k)%nat.
Proof.
  unfold maxLength. destruct v as [s|].
  - rewrite Z.leb_le. split.
    + intros Hl x [= <-]. lia.
    + intros Hl. specialize (Hl s eq_refl). lia.
  - split; [intros _ s; discriminate | reflexivity].
Qed.

Lemma required_match `{Platform} (pattern : string) (v : option string) :
  requiredString v && matchRegex pattern v = true
  <-> exists e, v = Some e /\ e <> "" /\ regexTest pattern false e = true.
Proof.
  unfold requiredString, matchRegex. destruct v as [[|c r]|]; simpl.
  - split; [discriminate | intros (e & [= <-] & He & _); congruence].
  - split.
    + intros He. eexists. split; [reflexivity|]. split; [discriminate|].
      exact He.
    + intros (e & [= <-] & _ & He). exact He.
  - split; [discriminate | intros (e & He & _); discriminate].
Qed.

Lemma matchRegex_spec `{Platform} (pattern : string) (v : option string) :
  matchRegex pattern v = true
  <-> forall e, v = Some e -> e <> "" -> regexTest pattern false e = true.
Proof.
  unfold matchRegex. destruct v as [[|c r]|].
  - split; [intros _ e [= <-] He; congruence | reflexivity].
  - split.
    + intros He e [= <-] _. exact He.
    + intros He. apply He; [reflexivity | discriminate].
  - split; [intros _ e; discriminate | reflexivity].
Qed.

Lemma capacityMissing_spec (d : Scooter) :
  capacityMissing d = false
  <-> (type d = Some "Petrol" -> filled (engineCapacity d))
      /\ (type d = Some "Electric" -> filled (batteryCapacity d)).
Proof.
  unfold capacityMissing.
  rewrite orb_false_iff, !andb_false_iff, !negb_false_iff, !truthy_filled.
  assert (E : forall x, is_str (type d) x = false <-> type d <> Some x).
  { intros x. rewrite <- is_str_eq.
    destruct (is_str (type d) x); split; congruence. }
  rewrite !E. split.
  - intros [[Hp | Hp] [He | He]]; split; intros Ht; try contradiction;
      assumption.
  - intros [Hp He]. split.
    + destruct (is_str (type d) "Petrol") eqn:Ht.
      * right. apply Hp. apply is_str_eq. exact Ht.
      * left. apply E. exact Ht.
    + destruct (is_str (type d) "Electric") eqn:Ht.
      * right. apply He. apply is_str_eq. exact Ht.
      * left. apply E. exact Ht.
Qed.

(** A document is well formed exactly when it satisfies the invariants of
    the data model. *)
Lemma wellFormed_invariants `{Platform} (d : Scooter) :
  wellFormed d = true <-> listingInvariants d.
Proof.
  unfold wellFormed.
  rewrite andb_true_iff, negb_true_iff, otherPathsValid_iff,
    errorsBeforeCapacity_nil, errorsAfterCapacity_nil, capacityMissing_spec.
  rewrite !andb_true_iff.
  change 1000 with (Z.of_nat 1000).
  rewrite maxLength_spec, <- andb_true_iff, required_match, matchRegex_spec.
  unfold enum. rewrite includes_In, Z.leb_le.
  split.
  - intros [[(Hn & Hb & Hc & Hp & Hq & Ht) ((((Hd & Hs) & Hci) & Ha) & Hv)]
              [He Hba]].
    constructor; assumption.
  - intros [Hn Hb Hc Hp Hq Ht He Hba Hd Hs Hci Ha Hv]. tauto.
Qed.




(** ** Invariants of the collection *)




Lemma markScooterSold_found `{Platform} now id s oid x :
  castObjectId id = Some oid -> findById oid s = Some x ->
  wellFormed x = true ->
  markScooterSold now id s
  = (replaceDoc (afterSold now x) s,
     mkResponse 200 "Scooter marked as sold successfully"
       (Doc (afterSold now x))).
Proof.
  intros Hc Hf Hw. unfold markScooterSold, markAsSold.
  rewrite Hc, Hf.
  rewrite (save_wellFormed now false _ _ s (wellFormed_sold x Hw)).
  reflexivity.
Qed.



(** A request that is not answered 200 or 201 leaves the collection as it
    was: no handler stores anything before it fails. *)
Theorem failed_request_no_effect `{Platform} (now : Z) (r : Request)
  (s s' : Collection) (resp : Response) :
  handle now r s = (s', resp) ->
  status resp <> 200 -> status resp <> 201 -> s' = s.
Proof.
  destruct r as [q|id|b|id|id|t q|a b q|]; cbn [handle];
    try (intros [= <- _]; reflexivity).
  - unfold getScooterById.
    destruct (castObjectId id); [|intros [= <- _]; reflexivity].
    destruct (findById _ s); [|intros [= <- _]; reflexivity].
    destruct (incrementViewCount _ _ _) as [e|[s1 x1]].
    + destruct e; intros [= <- _]; reflexivity.
    + intros [= <- <-] H200 _. exfalso. apply H200. reflexivity.
  - unfold createScooter.
    destruct (save _ _ _ _ _) as [e|[s1 x1]].
    + destruct e; intros [= <- _]; reflexivity.
    + intros [= <- <-] _ H201. exfalso. apply H201. reflexivity.
  - unfold deleteScooter.
    destruct (castObjectId id); [|intros [= <- _]; reflexivity].
    destruct (findById _ s); [|intros [= <- _]; reflexivity].
    intros [= <- <-] H200 _. exfalso. apply H200. reflexivity.
  - unfold markScooterSold.
    destruct (castObjectId id); [|intros [= <- _]; reflexivity].
    destruct (findById _ s); [|intros [= <- _]; reflexivity].
    destruct (markAsSold _ _ _) as [e|[s1 x1]].
    + destruct e; intros [= <- _]; reflexivity.
    + intros [= <- <-] H200 _. exfalso. apply H200. reflexivity.
Qed.

Lemma failed_request_no_effect_witness :
  fst (@handle examplePlatform 5 (GetScooterById "nonsense") showroom)
  = showroom.
Proof.
  apply (@failed_request_no_effect examplePlatform 5
           (GetScooterById "nonsense") showroom _
           (snd (@handle examplePlatform 5 (GetScooterById "nonsense")
                   showroom)));
    [reflexivity | discriminate | discriminate].
Defined.

Lemma map_id_replaceDoc (d : Scooter) (s : Collection) :
  map _id (replaceDoc d s) = map _id s.
Proof.
  unfold replaceDoc. rewrite map_map. apply map_ext. intros a.
  destruct (N.eqb_spec (_id a) (_id d)); congruence.
Qed.

Lemma step_ids `{Platform} (s s' : Collection) :
  Step s s' ->
  map _id s' = map _id s
  \/ exists o, ~ In o (map _id s) /\ map _id s' = (map _id s ++ [o])%list.
Proof.
  intros [|d Hid|now x Hf|now x Hf|now x Hf];
    try (left; first [reflexivity | apply map_id_replaceDoc]).
  right. exists (_id d). split.
  - rewrite Hid. apply newObjectId_fresh.
  - rewrite map_app. reflexivity.
Qed.

(** No request other than [PUT /:id], which is not modelled, removes a
    listing or changes an id: after any sequence of them the ids of the
    collection are the old ones, in the same order, followed by those of the
    listings created since; and ids that were unique stay unique. *)
Theorem ids_append_only `{Platform} (trace : list (Z * Request))
  (s : Collection) :
  exists created,
    map _id (run trace s) = (map _id s ++ created)%list
    /\ (NoDup (map _id s) -> NoDup (map _id (run trace s))).
Proof.
  revert s. induction trace as [|[now r] rest IH]; intros s.
  - exists []. cbn [run]. rewrite app_nil_r. auto.
  - cbn [run]. destruct (IH (fst (handle now r s))) as (c & Hc & Hn).
    destruct (step_ids s _ (handle_step now r s)) as [E | (o & Ho & E)].
    + exists c. split; [rewrite Hc, E; reflexivity|].
      intros Hnd. apply Hn. rewrite E. exact Hnd.
    + exists (o :: c). split; [rewrite Hc, E, <- app_assoc; reflexivity|].
      intros Hnd. apply Hn. rewrite E.
      apply NoDup_app; [exact Hnd | constructor; [intros [] | constructor]|].
      intros a Ha [<- | []]. exact (Ho Ha).
Qed.

Lemma ids_append_only_witness :
  NoDup (map _id (@run examplePlatform
                    [(5, CreateScooter petrolBody); (6, DeleteScooter idOne)]
                    showroom)).
Proof.
  destruct (@ids_append_only examplePlatform
              [(5, CreateScooter petrolBody); (6, DeleteScooter idOne)]
              showroom) as (created & _ & Hnd).
  apply Hnd. cbn [showroom map listing _id].
  repeat (constructor; [cbn [In]; intuition discriminate|]). constructor.
Defined.

(** ** Creating a listing *)





(** The e-mails of a created listing.  [seller.email] is the first filled
    one of [seller.email] and [sellerEmail] of the body, or else
    "noreply@example.com"; [contactInfo.email] is the first filled one of
    the body's [contactInfo.email], [seller.email] and [sellerEmail], or
    else "noreply@example.com" as well (the handler leaves it empty and the
    save hook copies the seller's).  Both are filled in. *)
Theorem created_emails `{Platform} (now : Z) (b : Body) (s s' : Collection)
  (d : Scooter) (msg : string) :
  createScooter now b s = (s', mkResponse 201 msg (Doc d)) ->
  seller_email d
  = orElse (orElse (b_seller_email b) (b_sellerEmail b))
      (Some "noreply@example.com")
  /\ contactInfo_email d
     = orElse (orElse (orElse (b_contactInfo_email b) (b_seller_email b))
                 (b_sellerEmail b))
         (Some "noreply@example.com")
  /\ filled (seller_email d) /\ filled (contactInfo_email d).
Proof.
  unfold createScooter.
  destruct (save now true true (newScooter b s) s) as [e|[s1 d1]] eqn:Hs;
    [destruct e; discriminate|].
  intros [= <- _ <-]. apply save_inv in Hs as [-> _].
  unfold backfillContactEmail, stamp, newScooter.
  cbn [contactInfo_email seller_email set_updatedAt set_createdAt].
  destruct (b_contactInfo_email b) as [[|c1 r1]|],
    (b_seller_email b) as [[|c2 r2]|], (b_sellerEmail b) as [[|c3 r3]|];
    cbn; repeat split; try reflexivity;
    apply truthy_filled; reflexivity.
Qed.

Lemma created_emails_witness :
  exists d,
    snd (@createScooter examplePlatform 5
           (mkBody (Some "Activa") (Some "Honda") None (Some "Good")
              (Some "Petrol") (Some "150cc") None (Some 150000%Q)
              (Some 200000%Q) None None None None None None) [])
    = mkResponse 201 "Scooter listed successfully" (Doc d)
    /\ contactInfo_email d = Some "noreply@example.com".
Proof.
  eexists. split; [reflexivity|].
  apply (@created_emails examplePlatform 5
           (mkBody (Some "Activa") (Some "Honda") None (Some "Good")
              (Some "Petrol") (Some "150cc") None (Some 150000%Q)
              (Some 200000%Q) None None None None None None) [] _ _ _
           eq_refl).
Defined.

(** ** Marking a listing as sold *)

Lemma holdsAt_replaced (P : Scooter -> Prop) oid s x x' :
  findById oid s = Some x -> _id x' = oid -> P x' ->
  holdsAt P oid (replaceDoc x' s).
Proof.
  intros Hf Hid HP. split.
  - rewrite findById_replaceDoc, Hf. eauto.
  - intros z Hz Hzid. apply replaceDoc_In in Hz as [-> | [_ Hne]];
      [exact HP | congruence].
Qed.

Lemma afterSold_unchanged (now : Z) (x : Scooter) :
  name (afterSold now x) = name x /\ brand (afterSold now x) = brand x
  /\ type (afterSold now x) = type x
  /\ condition (afterSold now x) = condition x
  /\ presentPrice (afterSold now x) = presentPrice x
  /\ pastPrice (afterSold now x) = pastPrice x
  /\ engineCapacity (afterSold now x) = engineCapacity x
  /\ batteryCapacity (afterSold now x) = batteryCapacity x
  /\ createdAt (afterSold now x) = createdAt x.
Proof.
  unfold afterSold, backfillContactEmail, stamp.
  destruct (_ && _), (negb _); repeat split; reflexivity.
Qed.

(** [PATCH /:id/sold] of an existing listing that satisfies the invariants,
    whatever its [availability] and whether or not it is active, answers 200
    with the stored record, which now has [availability = "sold"]; the id,
    [isActive], [viewCount], the prices, the type and [createdAt] are as
    before, and no other listing changes. *)
Theorem mark_sold `{Platform} (now : Z) (id : string) (s : Collection)
  (oid : ObjectId) (x : Scooter) :
  castObjectId id = Some oid -> findById oid s = Some x ->
  listingInvariants x ->
  exists x',
    markScooterSold now id s
    = (replaceDoc x' s,
       mkResponse 200 "Scooter marked as sold successfully" (Doc x'))
    /\ findById oid (replaceDoc x' s) = Some x'
    /\ availability x' = "sold"
    /\ _id x' = oid /\ isActive x' = isActive x
    /\ viewCount x' = viewCount x
    /\ presentPrice x' = presentPrice x /\ pastPrice x' = pastPrice x
    /\ type x' = type x /\ createdAt x' = createdAt x
    /\ listingInvariants x'
    /\ (forall o, o <> oid -> findById o (replaceDoc x' s) = findById o s).
Proof.
  intros Hc Hf Hinv. apply wellFormed_invariants in Hinv as Hw.
  exists (afterSold now x).
  destruct (afterSold_fields now x) as (Hid & Hact & Hav & Hv).
  destruct (afterSold_unchanged now x)
    as (_ & _ & Hty & _ & Hp & Hq & _ & _ & Hcr).
  apply findById_In in Hf as Hx. destruct Hx as [_ Hxid].
  split; [apply (markScooterSold_found now id s oid x Hc Hf Hw)|].
  split.
  { rewrite findById_replaceDoc, Hf, Hid, N.eqb_refl. reflexivity. }
  split; [exact Hav|]. split; [congruence|].
  repeat (split; [assumption|]).
  split; [apply wellFormed_invariants, wellFormed_afterSold; exact Hw|].
  intros o Ho. apply findById_replaceDoc_other. congruence.
Qed.

Lemma mark_sold_witness :
  exists x',
    snd (@markScooterSold examplePlatform 7 idOne showroom)
    = mkResponse 200 "Scooter marked as sold successfully" (Doc x')
    /\ availability x' = "sold" /\ viewCount x' = 0.
Proof.
  destruct (@mark_sold examplePlatform 7 idOne showroom 1%N
              (listing 1 "Petrol" 50000 "available" true) eq_refl eq_refl)
    as (x' & Hr & _ & Ha & _ & _ & Hv & _).
  - apply wellFormed_invariants. reflexivity.
  - exists x'. rewrite Hr. auto.
Defined.

Lemma backfill_idempotent (d : Scooter) :
  backfillContactEmail (backfillContactEmail d) = backfillContactEmail d.
Proof.
  unfold backfillContactEmail.
  destruct (contactInfo_email d) as [[|c r]|] eqn:Ec,
    (seller_email d) as [[|c' r']|] eqn:Es;
    cbn [truthy negb andb contactInfo_email seller_email
           set_contactInfo_email];
    rewrite ?Ec, ?Es; reflexivity.
Qed.

Lemma afterSold_again (now1 now2 : Z) (x : Scooter) :
  afterSold now2 (afterSold now1 x) = afterSold now1 x.
Proof.
  destruct (afterSold_fields now1 x) as (_ & _ & Hav & _).
  unfold afterSold at 1. rewrite Hav. cbn [String.eqb negb stamp].
  assert (E : set_availability "sold" (afterSold now1 x) = afterSold now1 x).
  { unfold afterSold, backfillContactEmail, stamp.
    destruct (_ && _), (negb _); reflexivity. }
  change (String.eqb "sold" "sold") with true. cbn [negb stamp].
  rewrite E. unfold afterSold. apply backfill_idempotent.
Qed.

(** A second [PATCH /:id/sold] is answered as the first and leaves the
    collection exactly as the first left it: nothing is modified, so not
    even [updatedAt] moves. *)
Theorem mark_sold_twice `{Platform} (now1 now2 : Z) (id : string)
  (s : Collection) (oid : ObjectId) (x : Scooter) :
  castObjectId id = Some oid -> findById oid s = Some x ->
  listingInvariants x ->
  let s1 := fst (markScooterSold now1 id s) in
  status (snd (markScooterSold now1 id s)) = 200
  /\ markScooterSold now2 id s1 = (s1, snd (markScooterSold now1 id s)).
Proof.
  intros Hc Hf Hinv s1. apply wellFormed_invariants in Hinv as Hw.
  unfold s1. rewrite (markScooterSold_found now1 id s oid x Hc Hf Hw).
  cbn [fst snd]. split; [reflexivity|].
  destruct (afterSold_fields now1 x) as (Hid & _).
  apply findById_In in Hf as Hx. destruct Hx as [_ Hxid].
  assert (Hf1 : findById oid (replaceDoc (afterSold now1 x) s)
                = Some (afterSold now1 x)).
  { rewrite findById_replaceDoc, Hf, Hid, N.eqb_refl. reflexivity. }
  rewrite (markScooterSold_found now2 id _ oid _ Hc Hf1
             (wellFormed_afterSold now1 x Hw)).
  rewrite afterSold_again, replaceDoc_idempotent. reflexivity.
Qed.

Lemma mark_sold_twice_witness :
  let s1 := fst (@markScooterSold examplePlatform 7 idOne showroom) in
  @markScooterSold examplePlatform 9 idOne s1
  = (s1, snd (@markScooterSold examplePlatform 7 idOne showroom)).
Proof.
  intros s1.
  apply (@mark_sold_twice examplePlatform 7 9 idOne showroom 1%N
           (listing 1 "Petrol" 50000 "available" true) eq_refl eq_refl).
  apply wellFormed_invariants. reflexivity.
Defined.

Lemma respondPage_excludes `{Platform} f q okMessage errMessage s oid v d :
  f_availability f = Some v -> v <> "sold" ->
  holdsAt (fun y => availability y = "sold") oid s ->
  In d (resultSet (respondPage f q okMessage errMessage s)) -> _id d <> oid.
Proof.
  intros Hav Hv [_ Hall] Hd Hid.
  apply respondPage_resultSet in Hd as (pred & Hf & Hin & Hp).
  destruct (compileFilter_selects _ _ d Hf Hp) as (_ & Ha & _).
  rewrite Hav in Ha. cbn [holds] in Ha. apply String.eqb_eq in Ha.
  rewrite (Hall d Hin Hid) in Ha. congruence.
Qed.

(** Once [PATCH /:id/sold] has marked a listing, whatever requests other
    than [PUT /:id] follow, it is in no answer of [GET /] unless the
    [availability] parameter is "sold", and in no answer of
    [GET /type/:type] or [GET /price-range/:min/:max]. *)
Theorem sold_leaves_browsing `{Platform} (now : Z) (id : string)
  (s : Collection) (oid : ObjectId) (x : Scooter)
  (trace : list (Z * Request)) :
  castObjectId id = Some oid -> findById oid s = Some x ->
  listingInvariants x ->
  let later := run trace (fst (markScooterSold now id s)) in
  (forall q d, q_availability q <> Some "sold" ->
               In d (resultSet (getScooters q later)) -> _id d <> oid)
  /\ (forall t q d, In d (resultSet (getScootersByType t q later)) ->
                    _id d <> oid)
  /\ (forall a b q d,
        In d (resultSet (getScootersByPriceRange a b q later)) ->
        _id d <> oid).
Proof.
  intros Hc Hf Hinv later. apply wellFormed_invariants in Hinv as Hw.
  assert (Hsold : holdsAt (fun y => availability y = "sold") oid later).
  { unfold later. rewrite (markScooterSold_found now id s oid x Hc Hf Hw).
    cbn [fst]. apply holdsAt_run.
    - intros t y Hy. destruct (afterFetch_fields t y) as (_ & _ & -> & _).
      exact Hy.
    - intros t y _. apply (afterSold_fields t y).
    - intros t y Hy. exact Hy.
    - destruct (afterSold_fields now x) as (Hid & _ & Hav & _).
      apply findById_In in Hf as Hx. destruct Hx as [_ Hxid].
      apply (holdsAt_replaced _ oid s x); [exact Hf | congruence | exact Hav]. }
  split; [|split].
  - intros q d Hq Hd. unfold getScooters in Hd.
    apply (respondPage_excludes _ _ _ _ _ oid
             (orDefault (q_availability q) "available") d) in Hd;
      [exact Hd | reflexivity | | exact Hsold].
    destruct (q_availability q) as [v|]; cbn [orDefault];
      [congruence | discriminate].
  - intros t q d Hd. unfold getScootersByType in Hd.
    destruct (negb (includes typeValues t)); [destruct Hd|].
    apply (respondPage_excludes _ _ _ _ _ oid "available" d) in Hd;
      [exact Hd | reflexivity | discriminate | exact Hsold].
  - intros a b q d Hd. unfold getScootersByPriceRange in Hd.
    destruct (_ || _); [destruct Hd|].
    apply (respondPage_excludes _ _ _ _ _ oid "available" d) in Hd;
      [exact Hd | reflexivity | discriminate | exact Hsold].
Qed.

Lemma sold_leaves_browsing_witness :
  ~ In 1%N
      (map _id
         (resultSet
            (@getScooters examplePlatform noQuery
               (@run examplePlatform [(8, GetScooterById idOne)]
                  (fst (@markScooterSold examplePlatform 7 idOne
                          showroom)))))).
Proof.
  intros Hin. apply in_map_iff in Hin as (d & Hid & Hd). revert Hid.
  destruct (@sold_leaves_browsing examplePlatform 7 idOne showroom 1%N
              (listing 1 "Petrol" 50000 "available" true)
              [(8, GetScooterById idOne)] eq_refl eq_refl) as (Hl & _).
  - apply wellFormed_invariants. reflexivity.
  - apply (Hl noQuery d); [discriminate | exact Hd].
Defined.

(** ** The price virtuals *)




(** ** The list endpoints against each other *)

(** [GET /type/:type] for "Petrol" or "Electric" answers with the status,
    the page and the pagination that [GET /] gives for the same [page],
    [limit] and [sort] and that [type] as its only filter. *)
Theorem type_endpoint_as_list `{Platform} (t : string) (q : Query)
  (s : Collection) :
  t = "Petrol" \/ t = "Electric" ->
  status (getScootersByType t q s) = status (getScooters (typeQuery t q) s)
  /\ payload (getScootersByType t q s)
     = payload (getScooters (typeQuery t q) s).
Proof.
  intros Ht.
  assert (Hin : includes typeValues t = true)
    by (destruct Ht as [-> | ->]; reflexivity).
  assert (Hf : buildFilter (typeQuery t q) = findByType t).
  { unfold buildFilter, typeQuery, findByType, enumParam.
    cbn [q_type q_condition q_brand q_minPrice q_maxPrice q_search
           q_availability orDefault ifTruthy truthy orb boundParam].
    rewrite Hin. destruct Ht as [-> | ->]; reflexivity. }
  unfold getScootersByType, getScooters. rewrite Hin, Hf. cbn [negb].
  unfold respondPage.
  change (sortOf (typeQuery t q)) with (sortOf q).
  change (skipOf (typeQuery t q)) with (skipOf q).
  change (limitNum (typeQuery t q)) with (limitNum q).
  destruct (_ <- _ ;; _) as [e|[docs count]]; split; reflexivity.
Qed.

Lemma type_endpoint_as_list_witness :
  payload (@getScootersByType examplePlatform "Electric" pageTwoOfTwo
             showroom)
  = payload (@getScooters examplePlatform
               (typeQuery "Electric" pageTwoOfTwo) showroom).
Proof.
  apply (@type_endpoint_as_list examplePlatform "Electric" pageTwoOfTwo
           showroom).
  right. reflexivity.
Defined.

Lemma parseInt_nonempty (a : string) (z : Z) :
  parseInt a = JNum z -> truthy (Some a) = true.
Proof. destruct a; [discriminate | reflexivity]. Qed.

(** Whenever [GET /price-range/:min/:max] does not answer 400, it answers
    with the status, the page and the pagination that [GET /] gives for the
    same [page], [limit] and [sort] and the two segments as [minPrice] and
    [maxPrice]. *)
Theorem price_endpoint_as_list `{Platform} (a b : string) (q : Query)
  (s : Collection) :
  status (getScootersByPriceRange a b q s) <> 400 ->
  status (getScootersByPriceRange a b q s)
  = status (getScooters (priceQuery a b q) s)
  /\ payload (getScootersByPriceRange a b q s)
     = payload (getScooters (priceQuery a b q) s).
Proof.
  unfold getScootersByPriceRange.
  destruct (parseInt a) as [| |lo] eqn:Ha;
    [intros Hs; exfalso; apply Hs; reflexivity
    |exfalso; exact (parseInt_finite a Ha)|].
  destruct (parseInt b) as [| |hi] eqn:Hb;
    [intros Hs; exfalso; apply Hs; reflexivity
    |exfalso; exact (parseInt_finite b Hb)|].
  cbn [isNaN orb].
  destruct (numLt (JNum lo) (JNum 0) || numLt (JNum hi) (JNum 0)
            || numGt (JNum lo) (JNum hi));
    [intros Hs; exfalso; apply Hs; reflexivity|].
  intros _.
  assert (Hf : buildFilter (priceQuery a b q)
               = findByPriceRange (JNum lo) (JNum hi)).
  { unfold buildFilter, priceQuery, findByPriceRange, boundParam.
    cbn [q_type q_condition q_brand q_minPrice q_maxPrice q_search
           q_availability orDefault ifTruthy enumParam].
    rewrite (parseInt_nonempty a lo Ha), (parseInt_nonempty b hi Hb), Ha, Hb.
    reflexivity. }
  unfold getScooters. rewrite Hf. unfold respondPage.
  change (sortOf (priceQuery a b q)) with (sortOf q).
  change (skipOf (priceQuery a b q)) with (skipOf q).
  change (limitNum (priceQuery a b q)) with (limitNum q).
  destruct (_ <- _ ;; _) as [e|[docs count]]; split; reflexivity.
Qed.

Lemma price_endpoint_as_list_witness :
  payload (@getScootersByPriceRange examplePlatform "55000" "85000" noQuery
             showroom)
  = payload (@getScooters examplePlatform (priceQuery "55000" "85000" noQuery)
               showroom).
Proof.
  apply (@price_endpoint_as_list examplePlatform "55000" "85000" noQuery
           showroom).
  discriminate.
Defined.

(** ** The price filter of [GET /] *)

Lemma compileFilter_bounds `{Platform} (f : Filter) (pred : Scooter -> bool)
  (d : Scooter) (g l : option JsNumber) :
  compileFilter f = inr pred -> pred d = true ->
  f_presentPrice f = Some (mkPriceBounds g l) ->
  (forall lo, g = Some (JNum lo) -> priceAtLeast lo d)
  /\ (forall hi, l = Some (JNum hi) -> priceAtMost hi d).
Proof.
  unfold compileFilter, bind.
  destruct (compileRegex (f_brand f)) as [e|brandRe]; [discriminate|].
  destruct (f_presentPrice f) as [b|]; [|intros _ _ [=]].
  destruct (castBound (gte b)) as [e|lo'] eqn:Hlo; [discriminate|].
  destruct (castBound (lte b)) as [e|hi'] eqn:Hhi; [discriminate|].
  destruct (compileRegex (f_or f)) as [e|searchRe]; [discriminate|].
  intros [= <-] Hp [= ->]. cbn [gte lte] in Hlo, Hhi.
  repeat (apply andb_prop in Hp as [Hp ?]).
  match goal with
  | B : inBounds lo' hi' _ = true |- _ =>
      unfold inBounds in B;
      destruct (presentPrice d) as [p|] eqn:Ep; [|discriminate B];
      apply andb_prop in B as [B1 B2]
  end.
  split.
  - intros lo ->. cbn [castBound] in Hlo. injection Hlo as <-.
    cbn [holds] in B1. apply Qle_bool_iff in B1.
    exists p. split; [exact Ep | exact B1].
  - intros hi ->. cbn [castBound] in Hhi. injection Hhi as <-.
    cbn [holds] in B2. apply Qle_bool_iff in B2.
    exists p. split; [exact Ep | exact B2].
Qed.

Lemma respondPage_ok `{Platform} f q okMessage errMessage s :
  status (respondPage f q okMessage errMessage s) = 200 ->
  exists pred docs,
    compileFilter f = inr pred
    /\ respondPage f q okMessage errMessage s
       = mkResponse 200 okMessage
           (Page docs
              (paginationOf q (Z.of_nat (List.length (filter pred s))))).
Proof.
  unfold respondPage, findDocs, countDocuments, bind.
  destruct (compileFilter f) as [e|pred]; [discriminate|].
  destruct (window _ _ _) as [e|docs]; [discriminate|].
  intros _. exists pred, docs. auto.
Qed.

(** [GET /] with [minPrice] alone returns only listings priced at least the
    integer read from it, with [maxPrice] alone only listings priced at most
    that integer, with both only listings between the two; and when the two
    are the wrong way round it still answers (200, or 500 for a rejected
    query, never 400) with no listing at all and a [totalCount] of 0. *)
Theorem list_price_filter `{Platform} (q : Query) (s : Collection) :
  (forall a lo d,
     q_minPrice q = Some a -> parseInt a = JNum lo ->
     In d (resultSet (getScooters q s)) -> priceAtLeast lo d)
  /\ (forall b hi d,
        q_maxPrice q = Some b -> parseInt b = JNum hi ->
        In d (resultSet (getScooters q s)) -> priceAtMost hi d)
  /\ (forall a b lo hi,
        q_minPrice q = Some a -> parseInt a = JNum lo ->
        q_maxPrice q = Some b -> parseInt b = JNum hi -> hi < lo ->
        status (getScooters q s) <> 400
        /\ resultSet (getScooters q s) = []
        /\ forall docs pg,
             payload (getScooters q s) = Page docs pg -> totalCount pg = 0).
Proof.
  assert (Hmin : forall a lo pred d,
             q_minPrice q = Some a -> parseInt a = JNum lo ->
             compileFilter (buildFilter q) = inr pred -> pred d = true ->
             priceAtLeast lo d).
  { intros a lo pred d Ha Hlo Hf Hp.
    refine (proj1 (compileFilter_bounds _ pred d _ _ Hf Hp _) lo _).
    - unfold buildFilter. cbn [f_presentPrice]. rewrite Ha.
      rewrite (parseInt_nonempty a lo Hlo). reflexivity.
    - unfold boundParam. rewrite (parseInt_nonempty a lo Hlo), Hlo.
      reflexivity. }
  assert (Hmax : forall b hi pred d,
             q_maxPrice q = Some b -> parseInt b = JNum hi ->
             compileFilter (buildFilter q) = inr pred -> pred d = true ->
             priceAtMost hi d).
  { intros b hi pred d Hb Hhi Hf Hp.
    refine (proj2 (compileFilter_bounds _ pred d _ _ Hf Hp _) hi _).
    - unfold buildFilter. cbn [f_presentPrice]. rewrite Hb.
      rewrite (parseInt_nonempty b hi Hhi), orb_true_r. reflexivity.
    - unfold boundParam. rewrite (parseInt_nonempty b hi Hhi), Hhi.
      reflexivity. }
  assert (Hnone : forall a b lo hi pred,
             q_minPrice q = Some a -> parseInt a = JNum lo ->
             q_maxPrice q = Some b -> parseInt b = JNum hi -> hi < lo ->
             compileFilter (buildFilter q) = inr pred ->
             filter pred s = []).
  { intros a b lo hi pred Ha Hlo Hb Hhi Hlt Hf.
    destruct (filter pred s) as [|d r] eqn:E; [reflexivity|].
    assert (Hd : In d (filter pred s)) by (rewrite E; left; reflexivity).
    apply filter_In in Hd as [_ Hp].
    destruct (Hmin a lo pred d Ha Hlo Hf Hp) as (p & Hp1 & Hge).
    destruct (Hmax b hi pred d Hb Hhi Hf Hp) as (p' & Hp2 & Hle).
    rewrite Hp1 in Hp2. injection Hp2 as <-.
    exfalso. apply (Qle_trans _ _ _ Hge) in Hle.
    rewrite <- Zle_Qle in Hle. lia. }
  split; [|split].
  - intros a lo d Ha Hlo Hd. unfold getScooters in Hd.
    apply respondPage_resultSet in Hd as (pred & Hf & _ & Hp). eauto.
  - intros b hi d Hb Hhi Hd. unfold getScooters in Hd.
    apply respondPage_resultSet in Hd as (pred & Hf & _ & Hp). eauto.
  - intros a b lo hi Ha Hlo Hb Hhi Hlt. split; [|split].
    + unfold getScooters.
      match goal with
      | |- status (respondPage ?f ?q ?o ?e ?s) <> _ =>
          destruct (respondPage_status f q o e s) as [-> | ->]; discriminate
      end.
    + destruct (resultSet (getScooters q s)) as [|d r] eqn:E; [reflexivity|].
      assert (Hd : In d (resultSet (getScooters q s)))
        by (rewrite E; left; reflexivity).
      unfold getScooters in Hd.
      apply respondPage_resultSet in Hd as (pred & Hf & Hin & Hp).
      pose proof (Hnone a b lo hi pred Ha Hlo Hb Hhi Hlt Hf) as Hnil.
      assert (Hd : In d (filter pred s)) by (apply filter_In; auto).
      rewrite Hnil in Hd. destruct Hd.
    + intros docs pg Hpay. unfold getScooters in Hpay.
      destruct (respondPage_status (buildFilter q) q
                  "Scooters retrieved successfully" "Error fetching scooters"
                  s) as [H200 | H500].
      * apply respondPage_ok in H200 as (pred & docs' & Hf & Hr).
        rewrite Hr in Hpay. cbn [payload] in Hpay.
        injection Hpay as _ <-. cbn [paginationOf totalCount].
        rewrite (Hnone a b lo hi pred Ha Hlo Hb Hhi Hlt Hf). reflexivity.
      * exfalso. revert H500 Hpay. unfold respondPage.
        destruct (_ <- _ ;; _) as [e|[docs' count]]; [|discriminate].
        intros _. discriminate.
Qed.

Lemma list_price_filter_witness :
  resultSet (@getScooters examplePlatform
               (priceQuery "90000" "50000" noQuery) showroom) = []
  /\ forall d,
       In d (resultSet (@getScooters examplePlatform
                          (priceQuery "65000" "" noQuery) showroom)) ->
       priceAtLeast 65000 d.
Proof.
  destruct (@list_price_filter examplePlatform
              (priceQuery "90000" "50000" noQuery) showroom) as (_ & _ & Hinv).
  destruct (@list_price_filter examplePlatform
              (priceQuery "65000" "" noQuery) showroom) as (Hmin & _ & _).
  split.
  - apply (Hinv "90000" "50000" 90000 50000 eq_refl eq_refl eq_refl eq_refl).
    reflexivity.
  - intros d Hd. exact (Hmin "65000" 65000 d eq_refl eq_refl Hd).
Defined.

Example list_min_price_only :
  map _id (resultSet (@getScooters examplePlatform
                        (priceQuery "65000" "" noQuery) showroom))
  = [3%N; 4%N; 5%N].
Proof. reflexivity. Qed.

(** ** A stored listing that lacks its capacity *)

Lemma save_capacityMissing `{Platform} now isNew modified d s :
  capacityMissing d = true ->
  exists e, save now isNew modified d s = inl e /\ e <> CastError.
Proof.
  intros Hc. unfold save.
  destruct (validate _) as [|m errs].
  - rewrite preSave_capacity.
    rewrite <- (capacityMissing_stamp now isNew modified) in Hc.
    unfold capacityMissing in Hc.
    destruct (is_str _ "Petrol" && _);
      [eexists; split; [reflexivity | discriminate]|].
    cbn [orb] in Hc. rewrite Hc.
    eexists; split; [reflexivity | discriminate].
  - eexists; split; [reflexivity | discriminate].
Qed.

(** A stored listing whose engine type lacks its capacity field (a petrol
    one without [engineCapacity], an electric one without
    [batteryCapacity]) cannot be fetched or marked as sold: [GET /:id] and
    [PATCH /:id/sold] answer 500 and change nothing, because both go through
    [save].  [DELETE /:id] does not validate and answers 200. *)
Theorem missing_capacity_blocks_save `{Platform} (now : Z) (id : string)
  (s : Collection) (oid : ObjectId) (x : Scooter) :
  castObjectId id = Some oid -> findById oid s = Some x ->
  capacityMissing x = true ->
  (status (snd (getScooterById now id s)) = 500
   /\ fst (getScooterById now id s) = s)
  /\ (status (snd (markScooterSold now id s)) = 500
      /\ fst (markScooterSold now id s) = s)
  /\ deleteScooter now id s
     = (replaceDoc (afterDelete now x) s,
        mkResponse 200 "Scooter listing deleted successfully"
          (Doc (afterDelete now x))).
Proof.
  intros Hc Hf Hm. split; [|split].
  - unfold getScooterById, incrementViewCount. rewrite Hc, Hf.
    destruct (save_capacityMissing now false true
                (set_viewCount (viewCount x + 1) x) s Hm) as (e & -> & He).
    destruct e; [| contradiction |]; split; reflexivity.
  - unfold markScooterSold, markAsSold. rewrite Hc, Hf.
    destruct (save_capacityMissing now false
                (negb (String.eqb (availability x) "sold"))
                (set_availability "sold" x) s Hm) as (e & -> & He).
    destruct e; [| contradiction |]; split; reflexivity.
  - apply (deleteScooter_found now id s oid x Hc Hf).
Qed.

Lemma missing_capacity_blocks_save_witness :
  status (snd (@getScooterById examplePlatform 7 idOne [petrolNoEngine]))
  = 500
  /\ status (snd (@deleteScooter examplePlatform 7 idOne [petrolNoEngine]))
     = 200.
Proof.
  destruct (@missing_capacity_blocks_save examplePlatform 7 idOne
              [petrolNoEngine] 1%N petrolNoEngine eq_refl eq_refl eq_refl)
    as ((Hg & _) & _ & Hd).
  split; [exact Hg | rewrite Hd; reflexivity].
Defined.

(** ** Pages *)

(** The matches of a filter have unique ids when the collection has. *)
Lemma matches_ids_NoDup (pred : Scooter -> bool) (s : Collection) :
  NoDup (map _id s) -> NoDup (map _id (filter pred s)).
Proof.
  intros Hnd. induction s as [|d r IH]; [exact Hnd|].
  cbn [map] in Hnd. apply NoDup_cons_iff in Hnd as [Hfresh Hr].
  cbn [filter]. destruct (pred d); [|exact (IH Hr)].
  cbn [map]. apply NoDup_cons; [|exact (IH Hr)].
  contradict Hfresh.
  apply in_map_iff in Hfresh as (x & Hx & Hin). rewrite <- Hx.
  apply in_map. apply filter_In in Hin. exact (proj1 Hin).
Qed.

Lemma sorted_ids_NoDup `{Platform} (spec : string) (pred : Scooter -> bool)
  (s : Collection) :
  NoDup (map _id s) -> NoDup (map _id (sortDocs spec (filter pred s))).
Proof.
  intros Hnd.
  apply (Permutation_NoDup
           (l := map _id (filter pred s))).
  - apply Permutation_map, Permutation_sym, sortDocs_perm.
  - apply matches_ids_NoDup. exact Hnd.
Qed.

(** A listing of the page that starts at offset [k] sits at a position of
    the sorted matches between [k] and [k + n - 1]. *)
Lemma page_position {A : Type} (l : list A) (k n : nat) (d : A) :
  In d (firstn n (skipn k l)) ->
  exists i, (k <= i < k + n)%nat /\ nth_error l i = Some d.
Proof.
  intros Hd. apply In_nth_error in Hd as (j & Hj).
  assert (Hlt : (j < n)%nat).
  { assert (Hs : nth_error (firstn n (skipn k l)) j <> None) by congruence.
    apply nth_error_Some in Hs. rewrite length_firstn in Hs. lia. }
  rewrite nth_error_firstn, nth_error_skipn in Hj.
  destruct (Nat.ltb_spec j n); [|lia].
  exists (k + j)%nat. split; [lia | exact Hj].
Qed.

Lemma getScooters_page `{Platform} (q : Query) (p : option string)
  (s : Collection) (n L : Z) (pred : Scooter -> bool) :
  compileFilter (buildFilter q) = inr pred ->
  parseIntOr p 1 = JNum n -> limitNum q = JNum L -> 1 <= n -> 1 <= L ->
  resultSet (getScooters (withPage p q) s)
  = firstn (Z.to_nat L)
      (skipn (Z.to_nat ((n - 1) * L))
         (sortDocs (sortOf q) (filter pred s))).
Proof.
  intros Hf Hp HL Hn HL1. unfold getScooters.
  rewrite (respondPage_page (buildFilter (withPage p q)) (withPage p q)
             _ _ s n L pred Hf Hp HL Hn HL1).
  reflexivity.
Qed.

(** Pages partition the matches.  For a collection with unique ids, a
    query that the store accepts and a limit [L >= 1], on an unchanged
    collection that the store sorts the same way at each request
    ([sortDocs] is a function): no listing is on two different pages, no
    page lists a listing twice, and every matching listing is on one of the
    pages 1 to [totalPages]. *)
Theorem pages_partition `{Platform} (q : Query) (s : Collection) (L : Z)
  (pred : Scooter -> bool) :
  compileFilter (buildFilter q) = inr pred ->
  limitNum q = JNum L -> 1 <= L -> NoDup (map _id s) ->
  (forall p1 p2 n1 n2 d1 d2,
     parseIntOr p1 1 = JNum n1 -> parseIntOr p2 1 = JNum n2 ->
     1 <= n1 -> n1 < n2 ->
     In d1 (resultSet (getScooters (withPage p1 q) s)) ->
     In d2 (resultSet (getScooters (withPage p2 q) s)) ->
     _id d1 <> _id d2)
  /\ (forall p n,
        parseIntOr p 1 = JNum n -> 1 <= n ->
        NoDup (map _id (resultSet (getScooters (withPage p q) s))))
  /\ (forall d t,
        In d s -> pred d = true ->
        isCeiling (Z.of_nat (List.length (filter pred s))) L t ->
        exists n,
          1 <= n <= t
          /\ forall p, parseIntOr p 1 = JNum n ->
                       In d (resultSet (getScooters (withPage p q) s))).
Proof.
  intros Hf HL HL1 Hnd.
  set (sorted := sortDocs (sortOf q) (filter pred s)).
  assert (Hsn : NoDup (map _id sorted))
    by (apply sorted_ids_NoDup; exact Hnd).
  split; [|split].
  - intros p1 p2 n1 n2 d1 d2 Hp1 Hp2 H1 H12 Hd1 Hd2 Heq.
    rewrite (getScooters_page q p1 s n1 L pred Hf Hp1 HL H1 HL1) in Hd1.
    rewrite (getScooters_page q p2 s n2 L pred Hf Hp2 HL ltac:(lia) HL1)
      in Hd2.
    apply page_position in Hd1 as (i1 & Hi1 & He1).
    apply page_position in Hd2 as (i2 & Hi2 & He2).
    assert (Hlen : (i1 < List.length (map _id sorted))%nat).
    { rewrite length_map. apply nth_error_Some. fold sorted in He1.
      congruence. }
    assert (E : i1 = i2).
    { apply (proj1 (NoDup_nth_error (map _id sorted)) Hsn i1 i2 Hlen).
      rewrite !nth_error_map. fold sorted in He1, He2.
      rewrite He1, He2. cbn [option_map]. congruence. }
    assert (Hoff : (Z.to_nat ((n1 - 1) * L) + Z.to_nat L
                    <= Z.to_nat ((n2 - 1) * L))%nat) by nia.
    lia.
  - intros p n Hp Hn.
    rewrite (getScooters_page q p s n L pred Hf Hp HL Hn HL1).
    fold sorted. rewrite <- firstn_map, <- skipn_map.
    set (ids := map _id sorted) in *.
    set (k := Z.to_nat ((n - 1) * L)).
    assert (Hk : NoDup (skipn k ids)).
    { rewrite <- (firstn_skipn k ids) in Hsn.
      apply NoDup_app_remove_l in Hsn. exact Hsn. }
    rewrite <- (firstn_skipn (Z.to_nat L) (skipn k ids)) in Hk.
    apply NoDup_app_remove_r in Hk. exact Hk.
  - intros d t Hd Hp Hceil.
    assert (Hin : In d sorted).
    { apply (Permutation_in _ (Permutation_sym (sortDocs_perm _ _))).
      apply filter_In. auto. }
    apply In_nth_error in Hin as (i & Hi).
    assert (Hlt : (i < List.length sorted)%nat)
      by (apply nth_error_Some; congruence).
    assert (HN : List.length sorted = List.length (filter pred s))
      by (apply Permutation_length, sortDocs_perm).
    set (l := Z.to_nat L).
    assert (Hl : (1 <= l)%nat) by (unfold l; lia).
    pose proof (Nat.div_mod_eq i l) as Hdm.
    pose proof (Nat.mod_upper_bound i l ltac:(lia)) as Hmod.
    exists (Z.of_nat (i / l) + 1). split.
    + unfold isCeiling in Hceil. split; [lia|].
      assert (Z.of_nat (i / l) * L <= Z.of_nat i).
      { replace L with (Z.of_nat l) by (unfold l; lia). nia. }
      nia.
    + intros p Hpn.
      rewrite (getScooters_page q p s _ L pred Hf Hpn HL ltac:(lia) HL1).
      fold sorted.
      replace (Z.of_nat (i / l) + 1 - 1) with (Z.of_nat (i / l)) by lia.
      replace (Z.to_nat (Z.of_nat (i / l) * L)) with (l * (i / l))%nat
        by (unfold l; nia).
      fold l. apply (nth_error_In _ (i mod l)).
      rewrite nth_error_firstn, nth_error_skipn.
      destruct (Nat.ltb_spec (i mod l) l); [|lia].
      rewrite <- Hdm. exact Hi.
Qed.

Lemma showroom_ids_NoDup : NoDup (map _id showroom).
Proof.
  cbn [showroom map listing _id].
  repeat (constructor; [cbn [In]; intuition discriminate|]). constructor.
Qed.

Lemma pages_partition_witness :
  NoDup (map _id (resultSet (@getScooters examplePlatform pageTwoOfTwo
                               showroom)))
  /\ forall d1 d2,
       In d1 (resultSet (@getScooters examplePlatform
                           (withPage (Some "1") pageTwoOfTwo) showroom)) ->
       In d2 (resultSet (@getScooters examplePlatform pageTwoOfTwo
                           showroom)) ->
       _id d1 <> _id d2.
Proof.
  destruct (@pages_partition examplePlatform pageTwoOfTwo showroom 2 _
              eq_refl eq_refl ltac:(discriminate) showroom_ids_NoDup)
    as (Hdis & Hnd & _).
  split.
  - apply (Hnd (Some "2") 2 eq_refl). discriminate.
  - intros d1 d2 Hd1 Hd2.
    apply (Hdis (Some "1") (Some "2") 1 2 d1 d2 eq_refl eq_refl);
      [discriminate | reflexivity | exact Hd1 | exact Hd2].
Defined.

(** ** The statistics of a collection of valid listings *)

Lemma getStatistics_eq `{Platform} (s : Collection) :
  getStatistics s
  = mkResponse 200 "Scooter statistics retrieved successfully"
      (Stats
         (mkStatistics
            (countWhere isActive s)
            (countWhere forSale s)
            (countWhere
               (fun d => isActive d && String.eqb (availability d) "sold") s)
            (countWhere (fun d => isActive d && is_str (type d) "Petrol") s)
            (countWhere (fun d => isActive d && is_str (type d) "Electric") s)
            (match filter forSale s with
             | [] => mkPriceStats (Some 0%Q) (Some 0%Q) (Some 0%Q)
             | _ =>
                 mkPriceStats (avgOf (pricesOf (filter forSale s)))
                   (minOf (pricesOf (filter forSale s)))
                   (maxOf (pricesOf (filter forSale s)))
             end))).
Proof.
  unfold getStatistics, countDocuments, aggregatePrices, compileFilter, bind.
  cbn [compileRegex castBound f_brand f_or f_presentPrice f_isActive
         f_availability f_type f_condition holds].
  assert (E : forall P Q, (forall d, P d = Q d) ->
                          Z.of_nat (List.length (filter P s))
                          = countWhere Q s).
  { intros P Q HP. unfold countWhere. rewrite (filter_ext _ _ HP).
    reflexivity. }
  assert (E2 : filter
                 (fun d => Bool.eqb (isActive d) true
                           && String.eqb (availability d) "available"
                           && true && true && true && true && true) s
               = filter forSale s).
  { apply filter_ext. intros d. unfold forSale.
    destruct (isActive d), (String.eqb (availability d) "available");
      reflexivity. }
  do 2 f_equal. f_equal.
  - apply E. intros d. destruct (isActive d); reflexivity.
  - unfold countWhere. rewrite E2. reflexivity.
  - apply E. intros d.
    destruct (isActive d), (String.eqb (availability d) "sold"); reflexivity.
  - apply E. intros d.
    destruct (isActive d), (is_str (type d) "Petrol"); reflexivity.
  - apply E. intros d.
    destruct (isActive d), (is_str (type d) "Electric"); reflexivity.
  - rewrite E2. destruct (filter forSale s); reflexivity.
Qed.

Lemma countWhere_exclusive (A B1 B2 : Scooter -> bool) (s : Collection) :
  (forall d, B1 d && B2 d = false) ->
  countWhere (fun d => A d && B1 d) s + countWhere (fun d => A d && B2 d) s
  <= countWhere A s.
Proof.
  intros Hex. unfold countWhere.
  induction s as [|d r IH]; cbn [filter]; [reflexivity|].
  specialize (Hex d).
  destruct (A d), (B1 d), (B2 d); cbn [andb] in *; try discriminate;
    cbn [List.length]; rewrite ?Nat2Z.inj_succ; lia.
Qed.

Lemma countWhere_nonneg (P : Scooter -> bool) (s : Collection) :
  0 <= countWhere P s.
Proof. unfold countWhere. lia. Qed.

Lemma pricesOf_In (l : list Scooter) (p : Q) :
  In p (pricesOf l) <-> exists d, In d l /\ presentPrice d = Some p.
Proof.
  induction l as [|d r IH]; cbn [pricesOf].
  - split; [intros [] | intros (d & [] & _)].
  - destruct (presentPrice d) as [p'|] eqn:Ep.
    + cbn [In]. rewrite IH. split.
      * intros [<- | (x & Hx & Hp)]; [exists d | exists x]; auto.
      * intros (x & [<- | Hx] & Hp); [left; congruence | right; eauto].
    + rewrite IH. split.
      * intros (x & Hx & Hp). exists x. cbn [In]. auto.
      * intros (x & [<- | Hx] & Hp); [congruence | eauto].
Qed.

Lemma sumQ_bounds (l : list Q) (lo hi : Q) :
  (forall p, In p l -> (lo <= p)%Q /\ (p <= hi)%Q) ->
  (lo * inject_Z (Z.of_nat (List.length l)) <= sumQ l)%Q
  /\ (sumQ l <= hi * inject_Z (Z.of_nat (List.length l)))%Q.
Proof.
  induction l as [|x r IH]; intros Hb.
  - cbn [sumQ fold_right List.length]. change (inject_Z (Z.of_nat 0)) with 0%Q.
    split; lra.
  - destruct (IH (fun p Hp => Hb p (or_intror Hp))) as [IH1 IH2].
    destruct (Hb x (or_introl eq_refl)) as [Hx1 Hx2].
    cbn [List.length]. rewrite Nat2Z.inj_succ. unfold Z.succ.
    rewrite inject_Z_plus. change (inject_Z 1) with 1%Q.
    change (sumQ (x :: r)) with (x + sumQ r)%Q.
    split; lra.
Qed.

(** For a collection whose listings all satisfy the invariants of the data
    model, the statistics are consistent: [petrol + electric = total],
    [available + sold <= total], no count is negative, and, as soon as a
    listing is for sale, [0 <= minPrice <= avgPrice <= maxPrice] (the
    average taken over exact rationals). *)
Theorem statistics_consistent `{Platform} (s : Collection) :
  Forall (fun d => listingInvariants d) s ->
  exists st,
    getStatistics s
    = mkResponse 200 "Scooter statistics retrieved successfully" (Stats st)
    /\ 0 <= total st /\ 0 <= available st /\ 0 <= sold st
    /\ petrol st + electric st = total st
    /\ available st + sold st <= total st
    /\ (0 < available st ->
        exists a lo hi,
          priceStats st = mkPriceStats (Some a) (Some lo) (Some hi)
          /\ (0 <= lo)%Q /\ (lo <= a)%Q /\ (a <= hi)%Q).
Proof.
  intros Hall. rewrite Forall_forall in Hall.
  rewrite getStatistics_eq. eexists. split; [reflexivity|].
  cbn [total available sold petrol electric priceStats].
  split; [apply countWhere_nonneg|]. split; [apply countWhere_nonneg|].
  split; [apply countWhere_nonneg|].
  split.
  { apply petrol_electric_total. intros d Hd.
    destruct (inv_type d (Hall d Hd)) as (t & -> & [<- | [<- | []]]); auto. }
  split.
  { unfold forSale. apply countWhere_exclusive. intros d.
    destruct (String.eqb_spec (availability d) "available") as [-> |];
      reflexivity. }
  intros Hpos. unfold countWhere in Hpos.
  destruct (filter forSale s) as [|d r] eqn:Hf;
    [cbn [List.length] in Hpos; lia|].
  assert (Hprices : forall p, In p (pricesOf (d :: r)) -> (0 <= p)%Q).
  { intros p Hp. apply pricesOf_In in Hp as (x & Hx & Hxp).
    rewrite <- Hf in Hx. apply filter_In in Hx as [Hx _].
    destruct (inv_presentPrice x (Hall x Hx)) as (p' & Hp' & Hge).
    congruence. }
  assert (Hne : pricesOf (d :: r) <> []).
  { assert (Hd : In d s).
    { assert (In d (filter forSale s)) by (rewrite Hf; left; reflexivity).
      apply filter_In in H0. tauto. }
    destruct (inv_presentPrice d (Hall d Hd)) as (p & Hp & _).
    cbn [pricesOf]. rewrite Hp. discriminate. }
  destruct (aggregates_spec _ Hne)
    as (a & lo & hi & -> & -> & -> & Ha & [Hlo1 Hlo2] & [Hhi1 Hhi2]).
  exists a, lo, hi. split; [reflexivity|].
  split; [apply Hprices; exact Hlo1|].
  destruct (sumQ_bounds (pricesOf (d :: r)) lo hi) as [Hs1 Hs2].
  { intros p Hp. split; [apply Hlo2 | apply Hhi2]; exact Hp. }
  unfold isAverage in Ha.
  set (n := inject_Z (Z.of_nat (List.length (pricesOf (d :: r))))) in *.
  assert (Hn : (0 < n)%Q).
  { unfold n. change 0%Q with (inject_Z 0). rewrite <- Zlt_Qlt.
    destruct (pricesOf (d :: r)); [congruence | cbn [List.length]; lia]. }
  rewrite <- Ha in Hs1, Hs2.
  split.
  - apply (Qmult_le_r _ _ n Hn). exact Hs1.
  - apply (Qmult_le_r _ _ n Hn). exact Hs2.
Qed.

Lemma statistics_consistent_witness :
  exists st,
    @getStatistics examplePlatform showroom
    = mkResponse 200 "Scooter statistics retrieved successfully" (Stats st)
    /\ petrol st + electric st = total st
    /\ available st + sold st <= total st.
Proof.
  destruct (@statistics_consistent examplePlatform showroom)
    as (st & Hr & _ & _ & _ & Hpe & Has & _).
  - repeat (constructor; [apply wellFormed_invariants; reflexivity|]).
    constructor.
  - exists st. auto.
Defined.

(** ** Soft delete and the statistics *)

Lemma replaceDoc_absent (d : Scooter) (s : Collection) :
  ~ In (_id d) (map _id s) -> replaceDoc d s = s.
Proof.
  unfold replaceDoc. induction s as [|a r IH]; [reflexivity|].
  cbn [map In]. intros Hn.
  destruct (N.eqb_spec (_id a) (_id d)) as [E|E]; [tauto|].
  rewrite IH by tauto. reflexivity.
Qed.

Lemma countWhere_replaceDoc (P : Scooter -> bool) (d x : Scooter)
  (s : Collection) :
  NoDup (map _id s) -> In x s -> _id d = _id x ->
  countWhere P (replaceDoc d s)
  = countWhere P s - Z.b2z (P x) + Z.b2z (P d).
Proof.
  unfold countWhere. induction s as [|a r IH]; [intros _ []|].
  cbn [map]. intros Hnd Hin Hid. inversion Hnd as [|? ? Hn Hr]; subst.
  unfold replaceDoc. cbn [map]. fold (replaceDoc d r).
  destruct (N.eqb_spec (_id a) (_id d)) as [E|E].
  - assert (Hax : a = x).
    { destruct Hin as [Hax | Hin]; [exact Hax|].
      exfalso. apply Hn. rewrite E, Hid. apply in_map. exact Hin. }
    subst a. rewrite replaceDoc_absent by (rewrite Hid; exact Hn).
    cbn [filter]. destruct (P x), (P d); cbn [List.length Z.b2z];
      rewrite ?Nat2Z.inj_succ; lia.
  - assert (Hin' : In x r).
    { destruct Hin as [-> | Hin]; [congruence | exact Hin]. }
    specialize (IH Hr Hin' Hid). cbn [filter].
    destruct (P a); cbn [List.length]; rewrite ?Nat2Z.inj_succ; lia.
Qed.

(** In a collection with unique ids, [DELETE /:id] of a listing takes it
    out of exactly the statistics it counted in: [total] drops by one if it
    was active, and [available], [sold], [petrol] and [electric] each drop
    by one if it was active and of that availability or type; deleting an
    inactive listing changes no count. *)
Theorem delete_statistics `{Platform} (now : Z) (id : string)
  (s : Collection) (oid : ObjectId) (x : Scooter) :
  NoDup (map _id s) ->
  castObjectId id = Some oid -> findById oid s = Some x ->
  exists st st1,
    getStatistics s
    = mkResponse 200 "Scooter statistics retrieved successfully" (Stats st)
    /\ getStatistics (fst (deleteScooter now id s))
       = mkResponse 200 "Scooter statistics retrieved successfully"
           (Stats st1)
    /\ total st1 = total st - Z.b2z (isActive x)
    /\ available st1
       = available st
         - Z.b2z (isActive x && String.eqb (availability x) "available")
    /\ sold st1
       = sold st - Z.b2z (isActive x && String.eqb (availability x) "sold")
    /\ petrol st1
       = petrol st - Z.b2z (isActive x && is_str (type x) "Petrol")
    /\ electric st1
       = electric st - Z.b2z (isActive x && is_str (type x) "Electric").
Proof.
  intros Hnd Hc Hf.
  rewrite (deleteScooter_found now id s oid x Hc Hf). cbn [fst].
  rewrite !getStatistics_eq. eexists _, _.
  split; [reflexivity|]. split; [reflexivity|].
  cbn [total available sold petrol electric].
  apply findById_In in Hf as [Hin _].
  assert (E : forall P, P (afterDelete now x) = false ->
                        countWhere P (replaceDoc (afterDelete now x) s)
                        = countWhere P s - Z.b2z (P x)).
  { intros P HP.
    rewrite (countWhere_replaceDoc P (afterDelete now x) x s Hnd Hin
               eq_refl), HP.
    cbn [Z.b2z]. lia. }
  repeat split; apply E; reflexivity.
Qed.

Lemma delete_statistics_witness :
  exists st st1,
    @getStatistics examplePlatform showroom
    = mkResponse 200 "Scooter statistics retrieved successfully" (Stats st)
    /\ @getStatistics examplePlatform
         (fst (@deleteScooter examplePlatform 7 idOne showroom))
       = mkResponse 200 "Scooter statistics retrieved successfully"
           (Stats st1)
    /\ total st1 = total st - 1 /\ petrol st1 = petrol st - 1
    /\ electric st1 = electric st.
Proof.
  destruct (@delete_statistics examplePlatform 7 idOne showroom 1%N
              (listing 1 "Petrol" 50000 "available" true)
              showroom_ids_NoDup eq_refl eq_refl)
    as (st & st1 & H0 & H1 & Ht & _ & _ & Hp & He).
  exists st, st1.
  split; [exact H0|]. split; [exact H1|].
  split; [exact Ht|]. split; [exact Hp|].
  rewrite He. apply Z.sub_0_r.
Defined.

(** ** The life of a listing *)

Lemma findById_unique (oid : ObjectId) (s : Collection) (x y : Scooter) :
  NoDup (map _id s) -> findById oid s = Some x ->
  In y s -> _id y = oid -> y = x.
Proof.
  intros Hnd Hf Hy Hid. apply findById_In in Hf as [Hx Hxid].
  induction s as [|a r IH]; [destruct Hy|].
  cbn [map] in Hnd. inversion Hnd as [|? ? Hn Hr]; subst.
  destruct Hx as [-> | Hx], Hy as [-> | Hy]; auto.
  - exfalso. apply Hn. rewrite <- Hid. apply in_map. exact Hy.
  - exfalso. apply Hn. rewrite Hid. apply in_map. exact Hx.
Qed.

Lemma afterFetch_unchanged (now : Z) (x : Scooter) :
  name (afterFetch now x) = name x /\ brand (afterFetch now x) = brand x
  /\ type (afterFetch now x) = type x
  /\ condition (afterFetch now x) = condition x
  /\ presentPrice (afterFetch now x) = presentPrice x
  /\ pastPrice (afterFetch now x) = pastPrice x
  /\ engineCapacity (afterFetch now x) = engineCapacity x
  /\ batteryCapacity (afterFetch now x) = batteryCapacity x
  /\ createdAt (afterFetch now x) = createdAt x.
Proof.
  unfold afterFetch, backfillContactEmail, stamp.
  destruct (_ && _); repeat split; reflexivity.
Qed.

(** In a collection with unique ids, whatever requests other than
    [PUT /:id] are served, an existing listing stays in the collection and: its
    [viewCount] never decreases; once inactive it stays inactive; once sold
    it stays sold; and its name, brand, type, condition, prices, capacities
    and [createdAt] never change. *)
Theorem listing_lifecycle `{Platform} (s : Collection) (oid : ObjectId)
  (x : Scooter) (trace : list (Z * Request)) :
  NoDup (map _id s) -> findById oid s = Some x ->
  exists x',
    findById oid (run trace s) = Some x'
    /\ viewCount x <= viewCount x'
    /\ (isActive x = false -> isActive x' = false)
    /\ (availability x = "sold" -> availability x' = "sold")
    /\ name x' = name x /\ brand x' = brand x /\ type x' = type x
    /\ condition x' = condition x
    /\ presentPrice x' = presentPrice x /\ pastPrice x' = pastPrice x
    /\ engineCapacity x' = engineCapacity x
    /\ batteryCapacity x' = batteryCapacity x
    /\ createdAt x' = createdAt x.
Proof.
  intros Hnd Hf.
  set (P := fun y : Scooter =>
              viewCount x <= viewCount y
              /\ (isActive x = false -> isActive y = false)
              /\ (availability x = "sold" -> availability y = "sold")
              /\ name y = name x /\ brand y = brand x /\ type y = type x
              /\ condition y = condition x
              /\ presentPrice y = presentPrice x /\ pastPrice y = pastPrice x
              /\ engineCapacity y = engineCapacity x
              /\ batteryCapacity y = batteryCapacity x
              /\ createdAt y = createdAt x).
  assert (Hinv : holdsAt P oid (run trace s)).
  { apply holdsAt_run.
    - intros now y (Hv & Ha & Hs & Hrest).
      destruct (afterFetch_fields now y) as (_ & E1 & E2 & E3 & _).
      destruct (afterFetch_unchanged now y)
        as (F1 & F2 & F3 & F4 & F5 & F6 & F7 & F8 & F9).
      unfold P. rewrite E1, E2, E3, F1, F2, F3, F4, F5, F6, F7, F8, F9.
      split; [lia|]. tauto.
    - intros now y (Hv & Ha & Hs & Hrest).
      destruct (afterSold_fields now y) as (_ & E1 & E2 & E3).
      destruct (afterSold_unchanged now y)
        as (F1 & F2 & F3 & F4 & F5 & F6 & F7 & F8 & F9).
      unfold P. rewrite E1, E2, E3, F1, F2, F3, F4, F5, F6, F7, F8, F9.
      split; [lia|]. tauto.
    - intros now y (Hv & Ha & Hs & Hrest). unfold P.
      cbn [afterDelete viewCount isActive availability name brand type
             condition presentPrice pastPrice engineCapacity batteryCapacity
             createdAt set_updatedAt set_isActive].
      tauto.
    - split; [eauto|]. intros y Hy Hid.
      rewrite (findById_unique oid s x y Hnd Hf Hy Hid).
      unfold P. repeat split; auto. lia. }
  destruct Hinv as [[x' Hx'] Hall].
  apply findById_In in Hx' as Hin. destruct Hin as [Hin Hid].
  exists x'. split; [exact Hx' | exact (Hall x' Hin Hid)].
Qed.

Lemma listing_lifecycle_witness :
  exists x',
    findById 1%N
      (@run examplePlatform
         [(7, GetScooterById idOne); (8, DeleteScooter idOne);
          (9, CreateScooter petrolBody); (10, MarkScooterSold idOne)]
         showroom) = Some x'
    /\ 0 <= viewCount x' /\ presentPrice x' = Some 50000%Q.
Proof.
  destruct (@listing_lifecycle examplePlatform showroom 1%N
              (listing 1 "Petrol" 50000 "available" true)
              [(7, GetScooterById idOne); (8, DeleteScooter idOne);
               (9, CreateScooter petrolBody); (10, MarkScooterSold idOne)]
              showroom_ids_NoDup eq_refl)
    as (x' & Hf & Hv & _ & _ & _ & _ & _ & _ & Hp & _).
  exists x'. auto.
Defined.

(** ** The view count as a counter of fetches *)

Lemma handle_viewCount `{Platform} (now : Z) (r : Request) (s : Collection)
  (oid : ObjectId) (x : Scooter) :
  findById oid s = Some x -> wellFormed x = true ->
  exists x1,
    findById oid (fst (handle now r s)) = Some x1
    /\ wellFormed x1 = true
    /\ viewCount x1 = viewCount x + fetchesOf oid [(now, r)].
Proof.
  intros Hf Hw. apply findById_In in Hf as Hx. destruct Hx as [_ Hxid].
  assert (Hsame : exists x1, findById oid s = Some x1 /\ wellFormed x1 = true
                             /\ viewCount x1 = viewCount x + 0).
  { exists x. rewrite Z.add_0_r. auto. }
  assert (Hrep : forall d z,
             findById (_id d) s = Some z ->
             (_id d = oid -> z = x -> wellFormed d = true) ->
             forall k, (_id d = oid -> viewCount d = viewCount x + k) ->
                       (_id d <> oid -> k = 0) ->
             exists x1, findById oid (replaceDoc d s) = Some x1
                        /\ wellFormed x1 = true
                        /\ viewCount x1 = viewCount x + k).
  { intros d z Hz Hwd k Hk H0.
    destruct (N.eq_dec (_id d) oid) as [E|E].
    - exists d. rewrite <- E at 1.
      rewrite (findById_replaceDoc_same d s z Hz).
      assert (z = x) by (rewrite E, Hf in Hz; congruence). auto.
    - exists x. rewrite findById_replaceDoc_other by congruence.
      rewrite (H0 E), Z.add_0_r. auto. }
  destruct r as [q|id|b|id|id|t q|a b q|]; cbn [handle fst fetchesOf];
    try exact Hsame.
  - (* GET /:id *)
    unfold getScooterById.
    destruct (castObjectId id) as [o|]; [|exact Hsame].
    destruct (findById o s) as [z|] eqn:Hz.
    2:{ destruct (N.eqb_spec o oid) as [-> |]; [congruence | exact Hsame]. }
    destruct (incrementViewCount now z s) as [e|[s' z']] eqn:Hi.
    + destruct (N.eqb_spec o oid) as [-> |].
      * exfalso. rewrite Hf in Hz. injection Hz as <-.
        unfold incrementViewCount in Hi.
        rewrite (save_wellFormed now false true _ s
                   (wellFormed_viewCount x Hw)) in Hi.
        discriminate.
      * destruct e; exact Hsame.
    + apply save_inv in Hi as [Hz' ->]. cbn [fst].
      fold (afterFetch now z) in Hz'. subst z'.
      destruct (afterFetch_fields now z) as (Hid & _ & _ & Hv & _).
      apply findById_In in Hz as Hzz. destruct Hzz as [_ Hzid].
      apply (Hrep (afterFetch now z) z).
      * rewrite Hid, Hzid. exact Hz.
      * intros _ ->. apply wellFormed_afterFetch. exact Hw.
      * intros E. rewrite Hid in E.
        assert (Eo : o = oid) by congruence.
        rewrite Eo, N.eqb_refl, Hv.
        rewrite Eo, Hf in Hz. injection Hz as <-. lia.
      * intros E. rewrite Hid in E.
        assert (Eo : o <> oid) by congruence.
        apply N.eqb_neq in Eo. rewrite Eo. reflexivity.
  - (* POST / *)
    unfold createScooter.
    destruct (save now true true (newScooter b s) s) as [e|[s' d']] eqn:Hs.
    + destruct e; exact Hsame.
    + apply save_inv in Hs as [_ ->]. cbn [fst].
      exists x. rewrite (findById_app oid s [d'] x Hf), Z.add_0_r. auto.
  - (* DELETE /:id *)
    unfold deleteScooter.
    destruct (castObjectId id) as [o|]; [|exact Hsame].
    destruct (findById o s) as [z|] eqn:Hz; [|exact Hsame].
    cbn [fst]. apply findById_In in Hz as Hzz. destruct Hzz as [_ Hzid].
    apply (Hrep (set_updatedAt now (set_isActive false z)) z).
    * cbn [_id set_updatedAt set_isActive]. rewrite Hzid. exact Hz.
    * intros _ ->. exact Hw.
    * cbn [_id set_updatedAt set_isActive viewCount]. intros E.
      assert (Eo : o = oid) by congruence.
      rewrite Eo, Hf in Hz. injection Hz as <-. lia.
    * reflexivity.
  - (* PATCH /:id/sold *)
    unfold markScooterSold.
    destruct (castObjectId id) as [o|]; [|exact Hsame].
    destruct (findById o s) as [z|] eqn:Hz; [|exact Hsame].
    destruct (markAsSold now z s) as [e|[s' z']] eqn:Hi.
    + destruct e; exact Hsame.
    + apply save_inv in Hi as [Hz' ->]. cbn [fst].
      fold (afterSold now z) in Hz'. subst z'.
      destruct (afterSold_fields now z) as (Hid & _ & _ & Hv).
      apply findById_In in Hz as Hzz. destruct Hzz as [_ Hzid].
      apply (Hrep (afterSold now z) z).
      * rewrite Hid, Hzid. exact Hz.
      * intros _ ->. apply wellFormed_afterSold. exact Hw.
      * intros E. rewrite Hid in E.
        assert (Eo : o = oid) by congruence.
        rewrite Hv. rewrite Eo, Hf in Hz. injection Hz as <-. lia.
      * reflexivity.
Qed.

Lemma fetchesOf_cons `{Platform} (oid : ObjectId) (now : Z) (r : Request)
  (rest : list (Z * Request)) :
  fetchesOf oid ((now, r) :: rest)
  = fetchesOf oid [(now, r)] + fetchesOf oid rest.
Proof.
  destruct r; cbn [fetchesOf]; try lia.
  destruct (castObjectId id) as [o|]; [|lia].
  destruct (N.eqb o oid); lia.
Qed.

(** The view count counts the fetches.  For a listing that satisfies the
    invariants of the data model, after any sequence of requests other than
    [PUT /:id] its stored [viewCount] is the initial one plus the number of
    [GET /:id] requests for its id in the sequence: each of them counts
    once, and no other request (a fetch of another listing, a creation, a
    soft delete, a sale, a list or statistics query) changes it. *)
Theorem viewCount_counts_fetches `{Platform} (s : Collection)
  (oid : ObjectId) (x : Scooter) (trace : list (Z * Request)) :
  findById oid s = Some x -> listingInvariants x ->
  exists x',
    findById oid (run trace s) = Some x'
    /\ viewCount x' = viewCount x + fetchesOf oid trace.
Proof.
  intros Hf Hinv. apply wellFormed_invariants in Hinv as Hw. clear Hinv.
  revert s x Hf Hw.
  induction trace as [|[now r] rest IH]; intros s x Hf Hw.
  - exists x. cbn [run fetchesOf]. rewrite Z.add_0_r. auto.
  - destruct (handle_viewCount now r s oid x Hf Hw) as (x1 & Hf1 & Hw1 & Hv1).
    destruct (IH _ x1 Hf1 Hw1) as (x' & Hf' & Hv').
    exists x'. cbn [run]. split; [exact Hf'|].
    rewrite fetchesOf_cons. lia.
Qed.

Lemma viewCount_counts_fetches_witness :
  exists x',
    findById 1%N
      (@run examplePlatform
         [(7, GetScooterById idOne); (8, DeleteScooter idOne);
          (9, GetScooters noQuery); (10, GetScooterById idOne)]
         showroom) = Some x'
    /\ viewCount x' = 2.
Proof.
  destruct (@viewCount_counts_fetches examplePlatform showroom 1%N
              (listing 1 "Petrol" 50000 "available" true)
              [(7, GetScooterById idOne); (8, DeleteScooter idOne);
               (9, GetScooters noQuery); (10, GetScooterById idOne)]
              eq_refl) as (x' & Hf & Hv).
  - apply wellFormed_invariants. reflexivity.
  - exists x'. split; [exact Hf | exact Hv].
Defined.

(** ** What [totalCount] counts *)

Lemma respondPage_totalCount `{Platform} f q okMessage errMessage s docs pg :
  payload (respondPage f q okMessage errMessage s) = Page docs pg ->
  exists pred,
    compileFilter f = inr pred
    /\ totalCount pg = Z.of_nat (List.length (filter pred s)).
Proof.
  unfold respondPage, findDocs, countDocuments, bind.
  destruct (compileFilter f) as [e|pred]; [discriminate|].
  destruct (window _ _ _) as [e|page]; [discriminate|].
  cbn [payload]. intros [= _ <-]. exists pred. auto.
Qed.

(** Whatever the page and the limit, [totalCount] is the number of all the
    listings the endpoint selects: for [GET /] without filters the active and
    available ones, for [GET /type/:type] those of that type among them, for
    [GET /price-range/:min/:max] those priced between the two integers read
    from the bounds. *)
Theorem totalCount_complete `{Platform} (q : Query) (s : Collection) :
  (forall docs pg,
     payload (getScooters (plainQuery q) s) = Page docs pg ->
     totalCount pg = countWhere forSale s)
  /\ (forall t docs pg,
        payload (getScootersByType t q s) = Page docs pg ->
        totalCount pg
        = countWhere (fun d => forSale d && is_str (type d) t) s)
  /\ (forall a b docs pg,
        payload (getScootersByPriceRange a b q s) = Page docs pg ->
        exists lo hi,
          parseInt a = JNum lo /\ parseInt b = JNum hi
          /\ totalCount pg
             = countWhere (fun d => forSale d && priceBetween lo hi d) s).
Proof.
  split; [|split].
  - intros docs pg Hp. unfold getScooters in Hp.
    apply respondPage_totalCount in Hp as (pred & Hf & ->).
    cbn in Hf. injection Hf as <-. unfold countWhere.
    f_equal. f_equal. apply filter_ext. intros d. unfold forSale.
    destruct (isActive d), (String.eqb (availability d) "available");
      reflexivity.
  - intros t docs pg Hp. unfold getScootersByType in Hp.
    destruct (negb (includes typeValues t)); [discriminate|].
    apply respondPage_totalCount in Hp as (pred & Hf & ->).
    cbn in Hf. injection Hf as <-. unfold countWhere.
    f_equal. f_equal. apply filter_ext. intros d. unfold forSale.
    destruct (isActive d), (String.eqb (availability d) "available"),
      (is_str (type d) t); reflexivity.
  - intros a b docs pg Hp. unfold getScootersByPriceRange in Hp.
    destruct (parseInt a) as [| |lo] eqn:Ha; [discriminate | |].
    { exfalso. exact (parseInt_finite a Ha). }
    destruct (parseInt b) as [| |hi] eqn:Hb;
      [cbn in Hp; discriminate | |].
    { exfalso. exact (parseInt_finite b Hb). }
    destruct (isNaN _ || _ || _ || _ || _); [discriminate|].
    apply respondPage_totalCount in Hp as (pred & Hf & ->).
    cbn in Hf. injection Hf as <-. exists lo, hi.
    split; [reflexivity|]. split; [reflexivity|]. unfold countWhere.
    f_equal. f_equal. apply filter_ext. intros d.
    unfold forSale, priceBetween, inBounds, holds.
    destruct (isActive d), (String.eqb (availability d) "available"),
      (presentPrice d) as [p|]; cbn [Bool.eqb andb];
      rewrite ?andb_true_r; reflexivity.
Qed.

Lemma totalCount_complete_witness :
  exists docs pg,
    payload (@getScootersByType examplePlatform "Petrol" pageTwoOfTwo
               showroom) = Page docs pg
    /\ List.length docs = 1%nat /\ totalCount pg = 3.
Proof.
  destruct (@totalCount_complete examplePlatform pageTwoOfTwo showroom)
    as (_ & Ht & _).
  eexists _, _. split; [reflexivity|]. split; [reflexivity|].
  rewrite (Ht "Petrol" _ _ eq_refl). reflexivity.
Defined.

(** ** The remaining filters of [GET /] *)

Lemma compileFilter_regex `{Platform} (f : Filter) (pred : Scooter -> bool)
  (d : Scooter) :
  compileFilter f = inr pred -> pred d = true ->
  (forall b, f_brand f = Some b ->
             exists test, regexCompile b true = Some test
                          /\ regexOn test (brand d) = true)
  /\ (forall w, f_or f = Some w ->
                exists test,
                  regexCompile w true = Some test
                  /\ (regexOn test (name d) = true
                      \/ regexOn test (brand d) = true
                      \/ regexOn test (description d) = true)).
Proof.
  unfold compileFilter, bind, compileRegex.
  destruct (f_brand f) as [b|].
  - destruct (regexCompile b true) as [tb|] eqn:Eb; [|discriminate].
    destruct (match f_presentPrice f with Some _ => _ | None => _ end)
      as [e|bounds]; [discriminate|].
    destruct (f_or f) as [w|].
    + destruct (regexCompile w true) as [tw|] eqn:Ew; [|discriminate].
      intros [= <-] Hp. repeat (apply andb_prop in Hp as [Hp ?]).
      cbn [holds] in *. split.
      * intros b' [= <-]. eauto.
      * intros w' [= <-]. exists tw. split; [exact Ew|].
        match goal with
        | O : _ || _ || _ = true |- _ =>
            apply orb_prop in O as [O | O];
            [apply orb_prop in O as [O | O]|]; auto
        end.
    + intros [= <-] Hp. repeat (apply andb_prop in Hp as [Hp ?]).
      cbn [holds] in *. split; [intros b' [= <-]; eauto | intros w' [=]].
  - destruct (match f_presentPrice f with Some _ => _ | None => _ end)
      as [e|bounds]; [discriminate|].
    destruct (f_or f) as [w|].
    + destruct (regexCompile w true) as [tw|] eqn:Ew; [|discriminate].
      intros [= <-] Hp. repeat (apply andb_prop in Hp as [Hp ?]).
      cbn [holds] in *. split; [intros b' [=]|].
      intros w' [= <-]. exists tw. split; [exact Ew|].
      match goal with
      | O : _ || _ || _ = true |- _ =>
          apply orb_prop in O as [O | O];
          [apply orb_prop in O as [O | O]|]; auto
      end.
    + intros _ _. split; [intros b' [=] | intros w' [=]].
Qed.

(** Every listing [GET /] returns passes each filter the request sets: it
    has the [type] asked for when that is "Petrol" or "Electric", the
    [condition] asked for when that is one of the four, a [brand] that the
    non-empty [brand] pattern matches without regard to case, and a [name],
    [brand] or [description] that the non-empty [search] pattern matches. *)
Theorem list_filters_sound `{Platform} (q : Query) (s : Collection)
  (d : Scooter) :
  In d (resultSet (getScooters q s)) ->
  (forall t, q_type q = Some t -> t = "Petrol" \/ t = "Electric" ->
             type d = Some t)
  /\ (forall c, q_condition q = Some c -> In c conditionValues ->
                condition d = Some c)
  /\ (forall b, q_brand q = Some b -> b <> "" ->
                exists test, regexCompile b true = Some test
                             /\ regexOn test (brand d) = true)
  /\ (forall w, q_search q = Some w -> w <> "" ->
                exists test,
                  regexCompile w true = Some test
                  /\ (regexOn test (name d) = true
                      \/ regexOn test (brand d) = true
                      \/ regexOn test (description d) = true)).
Proof.
  intros Hd. unfold getScooters in Hd.
  apply respondPage_resultSet in Hd as (pred & Hf & _ & Hp).
  destruct (compileFilter_selects _ _ d Hf Hp) as (_ & _ & Hty & Hco & _).
  destruct (compileFilter_regex _ _ d Hf Hp) as (Hb & Hw).
  cbn [buildFilter f_type f_condition f_brand f_or] in Hty, Hco, Hb, Hw.
  split; [|split; [|split]].
  - intros t Ht Hin. rewrite Ht in Hty. unfold enumParam in Hty.
    assert (E : truthy (Some t) && includes typeValues t = true)
      by (destruct Hin as [-> | ->]; reflexivity).
    rewrite E in Hty. cbn [holds] in Hty. apply is_str_eq. exact Hty.
  - intros c Hc Hin. rewrite Hc in Hco. unfold enumParam in Hco.
    assert (E : truthy (Some c) && includes conditionValues c = true).
    { destruct Hin as [<- | [<- | [<- | [<- | []]]]]; reflexivity. }
    rewrite E in Hco. cbn [holds] in Hco. apply is_str_eq. exact Hco.
  - intros b Hq Hne. apply Hb. rewrite Hq. unfold ifTruthy.
    destruct b; [congruence | reflexivity].
  - intros w Hq Hne. apply Hw. rewrite Hq. unfold ifTruthy.
    destruct w; [congruence | reflexivity].
Qed.

Lemma list_filters_sound_witness :
  Forall (fun d => type d = Some "Electric")
    (resultSet (@getScooters examplePlatform
                  (withType (Some "Electric") noQuery) showroom)).
Proof.
  apply Forall_forall. intros d Hd.
  destruct (@list_filters_sound examplePlatform
              (withType (Some "Electric") noQuery) showroom d Hd)
    as (Ht & _).
  apply Ht; [reflexivity | right; reflexivity].
Defined.
